(** * Slack MCP server: dispatch layer (src/main.py)

    A shallow embedding of the tool registry [TOOLS], the remote client
    [SlackClient], the credential fetch [nango_credentials] and the two
    request handlers [list_tools] and [call_tool], followed by the
    properties of the dispatch contract.

    Conventions of the embedding.
    - A Python value that travels through the handlers (tool arguments,
      decoded response bodies, credentials) is a JSON value; Python's
      [None] is [JNull].  Numbers are Python ints ([Z]); floats are
      outside the model.
    - A Python [str] is a [string] whose characters are read as code
      points 0..255.
    - A [dict] is an association list in insertion order.
    - The network is an oracle [World]; every request handed to httpx
      and every line printed on the diagnostic stream is appended to a
      trace, so "how many outbound calls" is a question about the trace. *)

From Stdlib Require Import ZArith List String Ascii Bool Lia DecimalString.
Import ListNotations.
Local Open Scope list_scope.
Local Open Scope Z_scope.
Local Open Scope string_scope.

(** ** Python values *)

#[local] Set Warnings "-register-all".

Inductive json : Type :=
| JNull
| JBool (b : bool)
| JInt (n : Z)
| JStr (s : string)
| JArr (items : list json)
| JObj (fields : list (string * json)).

Definition dict := list (string * json).

(** [d.get(key)] on a dict; first binding wins (keys are unique in a
    Python dict, so this is the only binding). *)
Fixpoint lookup (key : string) (d : dict) : option json :=
  match d with
  | [] => None
  | (k, v) :: rest => if String.eqb k key then Some v else lookup key rest
  end.

(** [d.get(key, default)]. *)
Definition dict_get (d : dict) (key : string) (default : json) : json :=
  match lookup key d with
  | Some v => v
  | None => default
  end.

(** Truth value of an object, as tested by [if x:] and [not x]. *)
Definition truthy (v : json) : bool :=
  match v with
  | JNull => false
  | JBool b => b
  | JInt n => negb (n =? 0)%Z
  | JStr s => negb (String.eqb s EmptyString)
  | JArr items => match items with [] => false | _ => true end
  | JObj fields => match fields with [] => false | _ => true end
  end.

(** [type(v).__name__]. *)
Definition type_name (v : json) : string :=
  match v with
  | JNull => "NoneType"
  | JBool _ => "bool"
  | JInt _ => "int"
  | JStr _ => "str"
  | JArr _ => "list"
  | JObj _ => "dict"
  end.

(** ** Text: decimal, hexadecimal, [repr], [str], [json.dumps], [urlencode] *)

Definition str_int (n : Z) : string := NilZero.string_of_int (Z.to_int n).

Definition chr (n : N) : string := String (ascii_of_N n) EmptyString.

Definition hex_digit (upper : bool) (d : N) : string :=
  if (d <? 10)%N then chr (48 + d)
  else chr ((if upper then 55 else 87) + d).

(** Two hexadecimal digits of a byte. *)
Definition hex2 (upper : bool) (c : N) : string :=
  hex_digit upper (c / 16) ++ hex_digit upper (c mod 16).

Fixpoint flat_map_string (f : ascii -> string) (s : string) : string :=
  match s with
  | EmptyString => EmptyString
  | String c rest => f c ++ flat_map_string f rest
  end.

Fixpoint contains_char (c : ascii) (s : string) : bool :=
  match s with
  | EmptyString => false
  | String c' rest => Ascii.eqb c c' || contains_char c rest
  end.

(** [json.dumps] of a string with the default [ensure_ascii=True]:
    backslash, double quote and everything outside space..tilde are
    escaped. *)
Definition json_escape_char (c : ascii) : string :=
  let n := N_of_ascii c in
  if (n =? 34)%N then "\" ++ chr 34
  else if (n =? 92)%N then "\\"
  else if (n =? 10)%N then "\n"
  else if (n =? 13)%N then "\r"
  else if (n =? 9)%N then "\t"
  else if (n =? 8)%N then "\b"
  else if (n =? 12)%N then "\f"
  else if ((32 <=? n) && (n <=? 126))%N then String c EmptyString
  else "\u00" ++ hex2 false n.

Definition json_quote (s : string) : string :=
  chr 34 ++ flat_map_string json_escape_char s ++ chr 34.

(** [json.dumps(v)] with the default separators [", "] and [": "]. *)
Fixpoint json_dumps (v : json) : string :=
  match v with
  | JNull => "null"
  | JBool true => "true"
  | JBool false => "false"
  | JInt n => str_int n
  | JStr s => json_quote s
  | JArr items =>
      "[" ++ (fix go (l : list json) : string :=
                match l with
                | [] => EmptyString
                | [x] => json_dumps x
                | x :: rest => json_dumps x ++ ", " ++ go rest
                end) items ++ "]"
  | JObj fields =>
      "{" ++ (fix go (l : list (string * json)) : string :=
                match l with
                | [] => EmptyString
                | [(k, x)] => json_quote k ++ ": " ++ json_dumps x
                | (k, x) :: rest => json_quote k ++ ": " ++ json_dumps x ++ ", " ++ go rest
                end) fields ++ "}"
  end.

(** [repr] of a [str]: single quotes unless the text has a single quote
    and no double quote; control and non-printable characters as
    [\xhh]. *)
Definition repr_quote_char (s : string) : N :=
  if contains_char (ascii_of_N 39) s && negb (contains_char (ascii_of_N 34) s)
  then 34%N else 39%N.

Definition printable (n : N) : bool :=
  ((32 <=? n) && (n <=? 126) || (161 <=? n) && negb (n =? 173))%N.

Definition repr_escape_char (quote : N) (c : ascii) : string :=
  let n := N_of_ascii c in
  if ((n =? quote) || (n =? 92))%N then "\" ++ String c EmptyString
  else if (n =? 9)%N then "\t"
  else if (n =? 10)%N then "\n"
  else if (n =? 13)%N then "\r"
  else if printable n then String c EmptyString
  else "\x" ++ hex2 false n.

Definition repr_str (s : string) : string :=
  let q := repr_quote_char s in
  chr q ++ flat_map_string (repr_escape_char q) s ++ chr q.

(** [repr(v)]. *)
Fixpoint py_repr (v : json) : string :=
  match v with
  | JNull => "None"
  | JBool true => "True"
  | JBool false => "False"
  | JInt n => str_int n
  | JStr s => repr_str s
  | JArr items =>
      "[" ++ (fix go (l : list json) : string :=
                match l with
                | [] => EmptyString
                | [x] => py_repr x
                | x :: rest => py_repr x ++ ", " ++ go rest
                end) items ++ "]"
  | JObj fields =>
      "{" ++ (fix go (l : list (string * json)) : string :=
                match l with
                | [] => EmptyString
                | [(k, x)] => repr_str k ++ ": " ++ py_repr x
                | (k, x) :: rest => repr_str k ++ ": " ++ py_repr x ++ ", " ++ go rest
                end) fields ++ "}"
  end.

(** [str(v)], also what an f-string [f"{v}"] renders. *)
Definition py_str (v : json) : string :=
  match v with
  | JStr s => s
  | _ => py_repr v
  end.

(** [urllib.parse.quote_plus]: letters, digits and [_.-~] are kept, a
    space becomes [+], every other byte of the UTF-8 encoding becomes
    [%XX]. *)
Definition url_safe (n : N) : bool :=
  ((48 <=? n) && (n <=? 57) || (65 <=? n) && (n <=? 90) || (97 <=? n) && (n <=? 122)
   || (n =? 95) || (n =? 46) || (n =? 45) || (n =? 126))%N.

Definition quote_plus_char (c : ascii) : string :=
  let n := N_of_ascii c in
  if url_safe n then String c EmptyString
  else if (n =? 32)%N then "+"
  else if (n <? 128)%N then "%" ++ hex2 true n
  else "%" ++ hex2 true (192 + n / 64) ++ "%" ++ hex2 true (128 + n mod 64).

Definition quote_plus (s : string) : string := flat_map_string quote_plus_char s.

(** [urllib.parse.urlencode(params)] for a dict of parameters. *)
Fixpoint urlencode (params : dict) : string :=
  match params with
  | [] => EmptyString
  | [(k, v)] => quote_plus k ++ "=" ++ quote_plus (py_str v)
  | (k, v) :: rest => quote_plus k ++ "=" ++ quote_plus (py_str v) ++ "&" ++ urlencode rest
  end.

(** ** The outside world: HTTP requests, responses, exceptions *)

Inductive http_method : Type := GET | POST.

(** A request as it is handed to httpx: [params=] and [json=] are kept
    as given, the query string of the Slack reads is already part of
    the URL. *)
Record request : Type := Request {
  req_method : http_method;
  req_url : string;
  req_headers : list (string * string);
  req_params : dict;
  req_json : option json
}.

(** The body of a response: either it decodes as JSON, or
    [response.json()] raises a decode error with the given text. *)
Inductive body : Type :=
| BodyJson (j : json)
| BodyInvalid (msg : string).

(** [status_text] is the text httpx gives the [HTTPStatusError] it
    raises for this response. *)
Record response : Type := Response {
  status_code : Z;
  status_text : string;
  resp_body : body
}.

(** What httpx does with a request: it fails before a response exists
    (unreachable host, malformed URL, timeout), or it yields the
    response. *)
Inductive outcome : Type :=
| Unreachable (msg : string)
| Responded (r : response).

(** The network answers a request knowing the requests made before. *)
Definition World := list request -> request -> outcome.

Inductive exn_class : Type :=
| ValueError | TypeError | AttributeError
| JSONDecodeError | TransportError | HTTPStatusError.

(** A raised exception; [exn_msg] is [str(error)]. *)
Record exn : Type := Exn { exn_cls : exn_class; exn_msg : string }.

Inductive event : Type :=
| Stderr (line : string)
| Http (req : request).

Definition trace := list event.

Fixpoint requests (t : trace) : list request :=
  match t with
  | [] => []
  | Stderr _ :: rest => requests rest
  | Http r :: rest => r :: requests rest
  end.

(** ** Computations: a trace is threaded, an exception may be raised *)

Inductive result (A : Type) : Type :=
| Return (a : A)
| Raise (e : exn).
Arguments Return {A} a.
Arguments Raise {A} e.

Definition M (A : Type) : Type := trace -> result A * trace.

Definition ret {A} (a : A) : M A := fun t => (Return a, t).

Definition raise {A} (e : exn) : M A := fun t => (Raise e, t).

Definition bind {A B} (c : M A) (k : A -> M B) : M B :=
  fun t => match c t with
           | (Return a, t') => k a t'
           | (Raise e, t') => (Raise e, t')
           end.

(** [try: c  except Exception as error: h error]. *)
Definition try_except {A} (c : M A) (h : exn -> M A) : M A :=
  fun t => match c t with
           | (Return a, t') => (Return a, t')
           | (Raise e, t') => h e t'
           end.

Declare Scope py_scope.
Delimit Scope py_scope with py.
Notation "x <- c ;; k" := (bind c (fun x => k))
  (at level 100, c at next level, right associativity) : py_scope.
Notation "c ;;; k" := (bind c (fun _ => k))
  (at level 100, right associativity) : py_scope.
Local Open Scope py_scope.

(** [print(line, file=sys.stderr)]. *)
Definition print_stderr (line : string) : M unit :=
  fun t => (Return tt, (t ++ [Stderr line])%list).

(** An exception raised by a builtin on a value of the wrong type. *)
Definition lift {A} (r : result A) : M A := fun t => (r, t).

(** [obj.get(key, default)]: only a dict has the method. *)
Definition py_get (obj : json) (key : string) (default : json) : result json :=
  match obj with
  | JObj fields => Return (dict_get fields key default)
  | _ => Raise (Exn AttributeError
                  ("'" ++ type_name obj ++ "' object has no attribute 'get'"))
  end.

(** [min(limit, 200)]: the second argument replaces the first when it
    is smaller, which needs [200 < limit] to be defined.  (A float
    limit, for which it is defined too, is not a value of the model.) *)
Definition py_min (limit : json) (bound : Z) : result json :=
  match limit with
  | JInt n => Return (if (bound <? n)%Z then JInt bound else limit)
  | JBool b => Return (if (bound <? (if b then 1 else 0))%Z then JInt bound else limit)
  | _ => Raise (Exn TypeError
                  ("'<' not supported between instances of 'int' and '"
                   ++ type_name limit ++ "'"))
  end.

(** ** Process configuration *)

(** The four environment variables; [None] when a variable is unset. *)
Record Env : Type := MkEnv {
  NANGO_BASE_URL : option string;
  NANGO_SECRET_KEY : option string;
  NANGO_CONNECTION_ID : option string;
  NANGO_INTEGRATION_ID : option string
}.

(** The value of [os.environ.get(name)] as a Python value. *)
Definition env_value (v : option string) : json :=
  match v with
  | Some s => JStr s
  | None => JNull
  end.

(** ** Tool definitions *)

Record Tool : Type := MkTool {
  name : string;
  description : string;
  inputSchema : json
}.

Definition prop_schema (ty descr : string) : json :=
  JObj [("type", JStr ty); ("description", JStr descr)].

Definition prop_schema_default (ty descr : string) (default : Z) : json :=
  JObj [("type", JStr ty); ("description", JStr descr); ("default", JInt default)].

Definition thread_ts_description : string :=
  "The timestamp of the parent message in the format '1234567890.123456'. Timestamps in the format without the period can be converted by adding the period such that 6 numbers come after it.".

Definition TOOLS : list Tool :=
  [ MkTool "slack_list_channels"
      "List public or pre-defined channels in the workspace with pagination"
      (JObj [("type", JStr "object");
             ("properties", JObj [
                ("limit", prop_schema_default "number"
                   "Maximum number of channels to return (default 100, max 200)" 100);
                ("cursor", prop_schema "string"
                   "Pagination cursor for next page of results")])]);
    MkTool "slack_post_message"
      "Post a new message to a Slack channel"
      (JObj [("type", JStr "object");
             ("properties", JObj [
                ("channel_id", prop_schema "string" "The ID of the channel to post to");
                ("text", prop_schema "string" "The message text to post")]);
             ("required", JArr [JStr "channel_id"; JStr "text"])]);
    MkTool "slack_reply_to_thread"
      "Reply to a specific message thread in Slack"
      (JObj [("type", JStr "object");
             ("properties", JObj [
                ("channel_id", prop_schema "string"
                   "The ID of the channel containing the thread");
                ("thread_ts", prop_schema "string" thread_ts_description);
                ("text", prop_schema "string" "The reply text")]);
             ("required", JArr [JStr "channel_id"; JStr "thread_ts"; JStr "text"])]);
    MkTool "slack_add_reaction"
      "Add a reaction emoji to a message"
      (JObj [("type", JStr "object");
             ("properties", JObj [
                ("channel_id", prop_schema "string"
                   "The ID of the channel containing the message");
                ("timestamp", prop_schema "string"
                   "The timestamp of the message to react to");
                ("reaction", prop_schema "string"
                   "The name of the emoji reaction (without ::)")]);
             ("required", JArr [JStr "channel_id"; JStr "timestamp"; JStr "reaction"])]);
    MkTool "slack_get_channel_history"
      "Get recent messages from a channel"
      (JObj [("type", JStr "object");
             ("properties", JObj [
                ("channel_id", prop_schema "string" "The ID of the channel");
                ("limit", prop_schema_default "number"
                   "Number of messages to retrieve (default 10)" 10)]);
             ("required", JArr [JStr "channel_id"])]);
    MkTool "slack_get_thread_replies"
      "Get all replies in a message thread"
      (JObj [("type", JStr "object");
             ("properties", JObj [
                ("channel_id", prop_schema "string"
                   "The ID of the channel containing the thread");
                ("thread_ts", prop_schema "string" thread_ts_description)]);
             ("required", JArr [JStr "channel_id"; JStr "thread_ts"])]);
    MkTool "slack_get_users"
      "Get a list of all users in the workspace with their basic profile information"
      (JObj [("type", JStr "object");
             ("properties", JObj [
                ("cursor", prop_schema "string"
                   "Pagination cursor for next page of results");
                ("limit", prop_schema_default "number"
                   "Maximum number of users to return (default 100, max 200)" 100)])]);
    MkTool "slack_get_user_profile"
      "Get detailed profile information for a specific user"
      (JObj [("type", JStr "object");
             ("properties", JObj [
                ("user_id", prop_schema "string" "The ID of the user")]);
             ("required", JArr [JStr "user_id"])]);
    MkTool "get_conversation_info"
      "Get information about a specific conversation (channel or DM)"
      (JObj [("type", JStr "object");
             ("properties", JObj [
                ("channel_id", prop_schema "string"
                   "The ID of the channel or conversation")]);
             ("required", JArr [JStr "channel_id"])]) ].

(** The names a tool's schema lists under ["required"]. *)
Definition required_args (t : Tool) : list string :=
  match inputSchema t with
  | JObj fields =>
      match lookup "required" fields with
      | Some (JArr items) =>
          flat_map (fun j => match j with JStr s => [s] | _ => [] end) items
      | _ => []
      end
  | _ => []
  end.

(** The content item of a tool response. *)
Record TextContent : Type := MkTextContent {
  type : string;
  text : string
}.

(** ** The remote client *)

Record SlackClient : Type := MkSlackClient {
  bot_headers : list (string * string);
  team_id : json
}.

(** [SlackClient.__init__]. *)
Definition SlackClient_init (bot_token team_id : json) : SlackClient :=
  {| bot_headers := [("Authorization", "Bearer " ++ py_str bot_token);
                     ("Content-Type", "application/json")];
     team_id := team_id |}.

(** [d[key] = value]: replaces the binding in place, or appends it. *)
Fixpoint dict_set (d : dict) (key : string) (value : json) : dict :=
  match d with
  | [] => [(key, value)]
  | (k, v) :: rest =>
      if String.eqb k key then (k, value) :: rest
      else (k, v) :: dict_set rest key value
  end.

Section Server.

Variable world : World.
Variable env : Env.

(** One HTTP exchange through httpx; the request is recorded whether
    or not a response comes back. *)
Definition send (req : request) : M response :=
  fun t => match world (requests t) req with
           | Unreachable msg => (Raise (Exn TransportError msg), (t ++ [Http req])%list)
           | Responded r => (Return r, (t ++ [Http req])%list)
           end.

Definition client_get (url : string) (headers : list (string * string))
    (params : dict) : M response :=
  send (Request GET url headers params None).

Definition client_post (url : string) (headers : list (string * string))
    (payload : json) : M response :=
  send (Request POST url headers [] (Some payload)).

(** [response.raise_for_status()]: any status outside 200..299 raises. *)
Definition raise_for_status (r : response) : M unit :=
  if (200 <=? status_code r)%Z && (status_code r <=? 299)%Z then ret tt
  else raise (Exn HTTPStatusError (status_text r)).

(** [response.json()]. *)
Definition response_json (r : response) : M json :=
  match resp_body r with
  | BodyJson j => ret j
  | BodyInvalid msg => raise (Exn JSONDecodeError msg)
  end.

Definition get_channels_params (self : SlackClient) (limit cursor : json)
    : result dict :=
  match py_min limit 200 with
  | Raise e => Raise e
  | Return m =>
      let params := [("types", JStr "public_channel");
                     ("exclude_archived", JStr "true");
                     ("limit", JStr (py_str m));
                     ("team_id", team_id self)] in
      Return (if truthy cursor then dict_set params "cursor" cursor else params)
  end.

Definition get_channels (self : SlackClient) (limit cursor : json) : M json :=
  params <- lift (get_channels_params self limit cursor) ;;
  response <- client_get
                ("https://slack.com/api/conversations.list?" ++ urlencode params)
                (bot_headers self) [] ;;
  response_json response.

(** Falls off the end, that is returns [None], unless the response is
    ok, has a channel and the channel is not archived.  [channel] is
    the value [data["channel"]] denotes once [data.get("channel")] has
    returned it. *)
Definition get_conversation_info (self : SlackClient) (channel_id : json) : M json :=
  let params := [("channel", channel_id)] in
  response <- client_get
                ("https://slack.com/api/conversations.info?" ++ urlencode params)
                (bot_headers self) [] ;;
  data <- response_json response ;;
  ok <- lift (py_get data "ok" JNull) ;;
  if truthy ok then
    channel <- lift (py_get data "channel" JNull) ;;
    if truthy channel then
      is_archived <- lift (py_get channel "is_archived" JNull) ;;
      if negb (truthy is_archived) then ret channel else ret JNull
    else ret JNull
  else ret JNull.

Definition post_message (self : SlackClient) (channel_id text : json) : M json :=
  response <- client_post "https://slack.com/api/chat.postMessage"
                (bot_headers self)
                (JObj [("channel", channel_id); ("text", text)]) ;;
  response_json response.

Definition post_reply (self : SlackClient) (channel_id thread_ts text : json) : M json :=
  response <- client_post "https://slack.com/api/chat.postMessage"
                (bot_headers self)
                (JObj [("channel", channel_id); ("thread_ts", thread_ts);
                       ("text", text)]) ;;
  response_json response.

Definition add_reaction (self : SlackClient) (channel_id timestamp reaction : json)
    : M json :=
  response <- client_post "https://slack.com/api/reactions.add"
                (bot_headers self)
                (JObj [("channel", channel_id); ("timestamp", timestamp);
                       ("name", reaction)]) ;;
  response_json response.

Definition get_channel_history (self : SlackClient) (channel_id limit : json) : M json :=
  let params := [("channel", channel_id); ("limit", JStr (py_str limit))] in
  response <- client_get
                ("https://slack.com/api/conversations.history?" ++ urlencode params)
                (bot_headers self) [] ;;
  response_json response.

Definition get_thread_replies (self : SlackClient) (channel_id thread_ts : json)
    : M json :=
  let params := [("channel", channel_id); ("ts", thread_ts)] in
  response <- client_get
                ("https://slack.com/api/conversations.replies?" ++ urlencode params)
                (bot_headers self) [] ;;
  response_json response.

Definition get_users_params (self : SlackClient) (limit cursor : json) : result dict :=
  match py_min limit 200 with
  | Raise e => Raise e
  | Return m =>
      let params := [("limit", JStr (py_str m)); ("team_id", team_id self)] in
      Return (if truthy cursor then dict_set params "cursor" cursor else params)
  end.

Definition get_users (self : SlackClient) (limit cursor : json) : M json :=
  params <- lift (get_users_params self limit cursor) ;;
  response <- client_get
                ("https://slack.com/api/users.list?" ++ urlencode params)
                (bot_headers self) [] ;;
  response_json response.

Definition get_user_profile (self : SlackClient) (user_id : json) : M json :=
  let params := [("user", user_id); ("include_labels", JStr "true")] in
  response <- client_get
                ("https://slack.com/api/users.profile.get?" ++ urlencode params)
                (bot_headers self) [] ;;
  response_json response.

(** ** The credential fetch *)

Definition nango_request (connection_id integration_id : json) : request :=
  let base_url := env_value (NANGO_BASE_URL env) in
  let secret_key := env_value (NANGO_SECRET_KEY env) in
  let url := py_str base_url ++ "/connection/" ++ py_str connection_id in
  let params := [("provider_config_key", integration_id);
                 ("refresh_token", JStr "true")] in
  let headers := [("Authorization", "Bearer " ++ py_str secret_key)] in
  Request GET url headers params None.

Definition nango_credentials (connection_id integration_id : json) : M json :=
  response <- send (nango_request connection_id integration_id) ;;
  raise_for_status response ;;;
  response_json response.

(** ** The request handlers *)

Definition list_tools : M (list Tool) :=
  print_stderr "Received ListToolsRequest" ;;;
  ret TOOLS.

Definition text_content (payload : json) : list TextContent :=
  [MkTextContent "text" (json_dumps payload)].

(** The body of the [try] block of [call_tool]: the chain of
    comparisons on the tool name. *)
Definition dispatch (slack_client : SlackClient) (name : string) (arguments : dict)
    : M (list TextContent) :=
  if String.eqb name "slack_list_channels" then
    let limit := dict_get arguments "limit" (JInt 100) in
    let cursor := dict_get arguments "cursor" JNull in
    response <- get_channels slack_client limit cursor ;;
    ret (text_content response)
  else if String.eqb name "get_conversation_info" then
    let channel_id := dict_get arguments "channel_id" JNull in
    if negb (truthy channel_id) then
      raise (Exn ValueError "Missing required argument: channel_id")
    else
      response <- get_conversation_info slack_client channel_id ;;
      if truthy response then ret (text_content response)
      else ret (text_content (JObj [("error", JStr "Channel not found or is archived")]))
  else if String.eqb name "slack_post_message" then
    let channel_id := dict_get arguments "channel_id" JNull in
    let text := dict_get arguments "text" JNull in
    if negb (truthy channel_id) || negb (truthy text) then
      raise (Exn ValueError "Missing required arguments: channel_id and text")
    else
      response <- post_message slack_client channel_id text ;;
      ret (text_content response)
  else if String.eqb name "slack_reply_to_thread" then
    let channel_id := dict_get arguments "channel_id" JNull in
    let thread_ts := dict_get arguments "thread_ts" JNull in
    let text := dict_get arguments "text" JNull in
    if negb (truthy channel_id) || negb (truthy thread_ts) || negb (truthy text) then
      raise (Exn ValueError
               "Missing required arguments: channel_id, thread_ts, and text")
    else
      response <- post_reply slack_client channel_id thread_ts text ;;
      ret (text_content response)
  else if String.eqb name "slack_add_reaction" then
    let channel_id := dict_get arguments "channel_id" JNull in
    let timestamp := dict_get arguments "timestamp" JNull in
    let reaction := dict_get arguments "reaction" JNull in
    if negb (truthy channel_id) || negb (truthy timestamp) || negb (truthy reaction) then
      raise (Exn ValueError
               "Missing required arguments: channel_id, timestamp, and reaction")
    else
      response <- add_reaction slack_client channel_id timestamp reaction ;;
      ret (text_content response)
  else if String.eqb name "slack_get_channel_history" then
    let channel_id := dict_get arguments "channel_id" JNull in
    if negb (truthy channel_id) then
      raise (Exn ValueError "Missing required argument: channel_id")
    else
      let limit := dict_get arguments "limit" (JInt 10) in
      response <- get_channel_history slack_client channel_id limit ;;
      ret (text_content response)
  else if String.eqb name "slack_get_thread_replies" then
    let channel_id := dict_get arguments "channel_id" JNull in
    let thread_ts := dict_get arguments "thread_ts" JNull in
    if negb (truthy channel_id) || negb (truthy thread_ts) then
      raise (Exn ValueError "Missing required arguments: channel_id and thread_ts")
    else
      response <- get_thread_replies slack_client channel_id thread_ts ;;
      ret (text_content response)
  else if String.eqb name "slack_get_users" then
    let limit := dict_get arguments "limit" (JInt 100) in
    let cursor := dict_get arguments "cursor" JNull in
    response <- get_users slack_client limit cursor ;;
    ret (text_content response)
  else if String.eqb name "slack_get_user_profile" then
    let user_id := dict_get arguments "user_id" JNull in
    if negb (truthy user_id) then
      raise (Exn ValueError "Missing required argument: user_id")
    else
      response <- get_user_profile slack_client user_id ;;
      ret (text_content response)
  else
    raise (Exn ValueError ("Unknown tool: " ++ name)).

(** The statements of [call_tool] that precede its [try]: the fetch,
    the two chained [.get] reads and the construction of the client. *)
Definition connect : M SlackClient :=
  credentials <- nango_credentials (env_value (NANGO_CONNECTION_ID env))
                   (env_value (NANGO_INTEGRATION_ID env)) ;;
  creds <- lift (py_get credentials "credentials" (JObj [])) ;;
  bot_token <- lift (py_get creds "access_token" JNull) ;;
  config <- lift (py_get credentials "connection_config" (JObj [])) ;;
  team_id <- lift (py_get config "team.id" JNull) ;;
  ret (SlackClient_init bot_token team_id).

(** The [except Exception as error] clause. *)
Definition on_error (error : exn) : M (list TextContent) :=
  print_stderr ("Error executing tool: " ++ exn_msg error) ;;;
  ret (text_content (JObj [("error", JStr (exn_msg error))])).

Definition call_tool (name : string) (arguments : dict) : M (list TextContent) :=
  print_stderr ("Received CallToolRequest: " ++ name) ;;;
  slack_client <- connect ;;
  try_except (dispatch slack_client name arguments) on_error.

End Server.

(** ** Vocabulary of the properties *)

(** The request the credential fetch of one [call_tool] makes: the
    connection and integration identifiers come from the environment. *)
Definition credential_request (env : Env) : request :=
  nango_request env (env_value (NANGO_CONNECTION_ID env))
    (env_value (NANGO_INTEGRATION_ID env)).

(** The names under which the registry advertises its tools. *)
Definition tool_names : list string := map name TOOLS.

(** The trace on which the [try] block of [call_tool] starts. *)
Definition connected_trace (env : Env) (name : string) (t : trace) : trace :=
  (t ++ [Stderr ("Received CallToolRequest: " ++ name);
         Http (credential_request env)])%list.

(** A URL of the Slack API. *)
Definition is_slack_url (url : string) : bool :=
  String.prefix "https://slack.com/api/" url.

(** The error envelope: one text item holding a JSON object with the
    single member ["error"]. *)
Definition error_envelope (message : string) : list TextContent :=
  text_content (JObj [("error", JStr message)]).

(** What a client method gets out of one exchange: the decoded body,
    or the exception of the transport or of the decoder. *)
Definition decoded (o : outcome) : result json :=
  match o with
  | Unreachable msg => Raise (Exn TransportError msg)
  | Responded r =>
      match resp_body r with
      | BodyJson j => Return j
      | BodyInvalid msg => Raise (Exn JSONDecodeError msg)
      end
  end.

(** A required argument counts as missing when it is absent or its
    value is empty (false in a condition). *)
Definition missing (arguments : dict) (arg : string) : Prop :=
  truthy (dict_get arguments arg JNull) = false.

(** [needle in haystack] on strings. *)
Fixpoint mentions (needle haystack : string) : bool :=
  String.prefix needle haystack
  || match haystack with
     | EmptyString => false
     | String _ rest => mentions needle rest
     end.

(** The requests of the client: a read puts its parameters in the
    query string, a write sends a JSON body. *)
Definition slack_read (self : SlackClient) (endpoint : string) (params : dict) : request :=
  Request GET ("https://slack.com/api/" ++ endpoint ++ "?" ++ urlencode params)
    (bot_headers self) [] None.

Definition slack_write (self : SlackClient) (endpoint : string) (payload : json) : request :=
  Request POST ("https://slack.com/api/" ++ endpoint) (bot_headers self) [] (Some payload).

(** What [get_conversation_info] makes of the decoded response: the
    channel, [None], or the exception of a [.get] on a non-dict. *)
Definition select_channel (data : json) : result json :=
  match py_get data "ok" JNull with
  | Raise e => Raise e
  | Return ok =>
      if truthy ok then
        match py_get data "channel" JNull with
        | Raise e => Raise e
        | Return channel =>
            if truthy channel then
              match py_get channel "is_archived" JNull with
              | Raise e => Raise e
              | Return is_archived =>
                  if negb (truthy is_archived) then Return channel else Return JNull
              end
            else Return JNull
        end
      else Return JNull
  end.

(** [r] followed by [f] on its value. *)
Definition and_then {A B} (r : result A) (f : A -> result B) : result B :=
  match r with
  | Return a => f a
  | Raise e => Raise e
  end.

(** What the credential fetch makes of the broker's answer. *)
Definition fetched (o : outcome) : result json :=
  match o with
  | Unreachable msg => Raise (Exn TransportError msg)
  | Responded r =>
      if (200 <=? status_code r)%Z && (status_code r <=? 299)%Z then
        match resp_body r with
        | BodyJson j => Return j
        | BodyInvalid msg => Raise (Exn JSONDecodeError msg)
        end
      else Raise (Exn HTTPStatusError (status_text r))
  end.

(** The client [call_tool] builds from the fetched credentials: the
    token and the team are read with chained [.get], absent members
    read as [None]. *)
Definition client_of (credentials : json) : result SlackClient :=
  and_then (py_get credentials "credentials" (JObj [])) (fun creds =>
  and_then (py_get creds "access_token" JNull) (fun bot_token =>
  and_then (py_get credentials "connection_config" (JObj [])) (fun config =>
  and_then (py_get config "team.id" JNull) (fun team_id =>
  Return (SlackClient_init bot_token team_id))))).

(** The value of a header of a request. *)
Fixpoint header (key : string) (headers : list (string * string)) : option string :=
  match headers with
  | [] => None
  | (k, v) :: rest => if String.eqb k key then Some v else header key rest
  end.

(** The Slack API reports a channel as not existing: the response is
    not ok, or it holds no channel. *)
Definition reports_missing (data : json) : Prop :=
  exists fields,
    data = JObj fields
    /\ (truthy (dict_get fields "ok" JNull) = false
        \/ truthy (dict_get fields "channel" JNull) = false).

(** The Slack API reports a channel as archived. *)
Definition reports_archived (data : json) : Prop :=
  exists fields channel,
    data = JObj fields
    /\ truthy (dict_get fields "ok" JNull) = true
    /\ dict_get fields "channel" JNull = JObj channel
    /\ truthy (dict_get channel "is_archived" JNull) = true.

(** The response is ok and holds the channel [channel], which is not
    archived. *)
Definition reports_live (data : json) (channel : dict) : Prop :=
  exists fields,
    data = JObj fields
    /\ truthy (dict_get fields "ok" JNull) = true
    /\ dict_get fields "channel" JNull = JObj channel
    /\ truthy (JObj channel) = true
    /\ truthy (dict_get channel "is_archived" JNull) = false.

(** The parameter names a tool's schema declares under ["properties"]. *)
Definition schema_properties (t : Tool) : list string :=
  match inputSchema t with
  | JObj fields =>
      match lookup "properties" fields with
      | Some (JObj props) => map fst props
      | _ => []
      end
  | _ => []
  end.

(** The default a tool's schema declares for a parameter. *)
Definition schema_default (t : Tool) (arg : string) : option json :=
  match inputSchema t with
  | JObj fields =>
      match lookup "properties" fields with
      | Some (JObj props) =>
          match lookup arg props with
          | Some (JObj spec) => lookup "default" spec
          | _ => None
          end
      | _ => None
      end
  | _ => None
  end.

(** Exceptions of the [try] block that are raised before a request is
    made, and those raised once the request has gone out. *)
Definition raised_before_request (e : exn) : Prop :=
  exn_cls e = ValueError \/ exn_cls e = TypeError.

Definition raised_after_request (e : exn) : Prop :=
  exn_cls e = TransportError \/ exn_cls e = JSONDecodeError
  \/ exn_cls e = AttributeError.

(** Among the values of the model, those [min(limit, 200)] accepts:
    ints and bools.  Python floats, which [min] accepts as well, are
    not values of the model. *)
Definition numeric (v : json) : bool :=
  match v with
  | JInt _ | JBool _ => true
  | _ => false
  end.

(** The values that have a [.get] method: dicts. *)
Definition is_object (v : json) : bool :=
  match v with
  | JObj _ => true
  | _ => false
  end.

(** The number of occurrences of a character in a string. *)
Fixpoint count_char (c : ascii) (s : string) : nat :=
  match s with
  | EmptyString => O
  | String c' rest => ((if Ascii.eqb c c' then 1 else 0) + count_char c rest)%nat
  end.

(** Every character of the string is a printable ASCII character,
    space to tilde. *)
Fixpoint all_printable (s : string) : bool :=
  match s with
  | EmptyString => true
  | String c rest =>
      ((32 <=? N_of_ascii c) && (N_of_ascii c <=? 126))%N && all_printable rest
  end.

(** The endpoints the client reads with a query string. *)
Definition read_endpoints : list string :=
  ["conversations.list"; "conversations.info"; "conversations.history";
   "conversations.replies"; "users.list"; "users.profile.get"].

(** The verb and the URL each tool uses. *)
Definition routes : list (string * (http_method * string)) :=
  [("slack_list_channels", (GET, "https://slack.com/api/conversations.list"));
   ("get_conversation_info", (GET, "https://slack.com/api/conversations.info"));
   ("slack_post_message", (POST, "https://slack.com/api/chat.postMessage"));
   ("slack_reply_to_thread", (POST, "https://slack.com/api/chat.postMessage"));
   ("slack_add_reaction", (POST, "https://slack.com/api/reactions.add"));
   ("slack_get_channel_history", (GET, "https://slack.com/api/conversations.history"));
   ("slack_get_thread_replies", (GET, "https://slack.com/api/conversations.replies"));
   ("slack_get_users", (GET, "https://slack.com/api/users.list"));
   ("slack_get_user_profile", (GET, "https://slack.com/api/users.profile.get"))].

(** ** Sample configurations, to run the handlers on concrete inputs *)

(** The double quote character. *)
Definition dq : string := chr 34.

Definition sample_env : Env :=
  MkEnv (Some "https://api.nango.dev") (Some "nango-secret")
        (Some "conn-1") (Some "slack").

(** The body with which the broker grants a token for a team. *)
Definition granted (token team : string) : json :=
  JObj [("credentials", JObj [("access_token", JStr token)]);
        ("connection_config", JObj [("team.id", JStr team)])].

Definition ok_response (j : json) : outcome :=
  Responded (Response 200 "OK" (BodyJson j)).

(** A network in which the broker always answers [broker] and the Slack
    API always answers [slack]. *)
Definition network (broker slack : outcome) : World :=
  fun _ req => if is_slack_url (req_url req) then slack else broker.

(** A network whose broker hands out a new token at every fetch,
    numbered by the requests that came before. *)
Definition rotating_network : World :=
  fun history req =>
    if is_slack_url (req_url req) then ok_response (JObj [("ok", JBool true)])
    else ok_response (granted ("xoxb-" ++ str_int (Z.of_nat (List.length history))) "T1").

(** A broker that refuses the secret key. *)
Definition unauthorized : outcome :=
  Responded (Response 401 "Client error '401 Unauthorized'"
               (BodyJson (JObj [("error", JStr "unauthorized")]))).

(** ** Basic facts about traces and the computation operators *)

(** From here on [++] is list concatenation; string concatenation is
    marked. *)
Local Open Scope list_scope.

Lemma requests_app (t1 t2 : trace) :
  requests (t1 ++ t2) = requests t1 ++ requests t2.
Proof.
  induction t1 as [|ev t1 IH]; simpl; [reflexivity|].
  destruct ev; simpl; rewrite IH; reflexivity.
Qed.

Lemma requests_stderr (t : trace) (line : string) :
  requests (t ++ [Stderr line]) = requests t.
Proof. rewrite requests_app. simpl. apply app_nil_r. Qed.

Lemma requests_http (t : trace) (req : request) :
  requests (t ++ [Http req]) = requests t ++ [req].
Proof. rewrite requests_app. reflexivity. Qed.

(** *** The statements before the [try] block *)

(** The fetch makes its one request and returns what [fetched] makes
    of the answer. *)
Lemma nango_credentials_spec (world : World) (env : Env) (connection_id integration_id : json)
    (t : trace) :
  let req := nango_request env connection_id integration_id in
  nango_credentials world env connection_id integration_id t
  = (fetched (world (requests t) req), t ++ [Http req]).
Proof.
  intros req. unfold nango_credentials, bind, send, fetched. fold req.
  destruct (world (requests t) req) as [msg|r]; [reflexivity|].
  unfold raise_for_status, response_json, ret, raise.
  destruct ((200 <=? status_code r)%Z && (status_code r <=? 299)%Z); [|reflexivity].
  destruct (resp_body r); reflexivity.
Qed.

(** The client is built from the fetched body; nothing else is
    requested before the [try] block. *)
Lemma connect_spec (world : World) (env : Env) (t : trace) :
  connect world env t
  = (and_then (fetched (world (requests t) (credential_request env))) client_of,
     t ++ [Http (credential_request env)]).
Proof.
  unfold connect. unfold bind at 1. rewrite nango_credentials_spec. cbv zeta.
  fold (credential_request env).
  destruct (fetched _) as [credentials|e]; [|reflexivity].
  unfold and_then at 1. unfold client_of, bind, lift, ret, and_then.
  destruct (py_get credentials "credentials" (JObj [])) as [creds|e]; [|reflexivity].
  destruct (py_get creds "access_token" JNull); [|reflexivity].
  destruct (py_get credentials "connection_config" (JObj [])) as [config|e]; [|reflexivity].
  destruct (py_get config "team.id" JNull); reflexivity.
Qed.

Lemma requests_connected (env : Env) (name : string) (t : trace) :
  requests (connected_trace env name t) = requests t ++ [credential_request env].
Proof. unfold connected_trace. rewrite requests_app. reflexivity. Qed.

Lemma on_error_spec (e : exn) (t : trace) :
  on_error e t
  = (Return (error_envelope (exn_msg e)),
     t ++ [Stderr ("Error executing tool: " ++ exn_msg e)%string]).
Proof. reflexivity. Qed.

(** What has been printed does not influence the fetch. *)
Lemma connect_in_call_tool (world : World) (env : Env) (name : string) (t : trace) :
  connect world env (t ++ [Stderr ("Received CallToolRequest: " ++ name)%string])
  = (fst (connect world env t), connected_trace env name t).
Proof.
  rewrite !connect_spec, requests_stderr. unfold connected_trace.
  rewrite <- app_assoc. reflexivity.
Qed.

(** [call_tool] once the client exists: the [try] block under its
    handler. *)
Lemma call_tool_connected (world : World) (env : Env) (name : string)
    (arguments : dict) (t : trace) (c : SlackClient) :
  fst (connect world env t) = Return c ->
  call_tool world env name arguments t
  = try_except (dispatch world c name arguments) on_error
      (connected_trace env name t).
Proof.
  intros H. unfold call_tool, bind at 1 2. unfold print_stderr.
  rewrite connect_in_call_tool, H. reflexivity.
Qed.

(** [call_tool] when the fetch or the reads after it raise: the
    exception leaves the handler, the [try] block is never entered. *)
Lemma call_tool_not_connected (world : World) (env : Env) (name : string)
    (arguments : dict) (t : trace) (e : exn) :
  fst (connect world env t) = Raise e ->
  call_tool world env name arguments t = (Raise e, connected_trace env name t).
Proof.
  intros H. unfold call_tool, bind at 1 2. unfold print_stderr.
  rewrite connect_in_call_tool, H. reflexivity.
Qed.

(** One exchange followed by [response.json()], as every client method
    has it. *)
Lemma exchange (world : World) (req : request) (t : trace) :
  bind (send world req) response_json t
  = (decoded (world (requests t) req), t ++ [Http req]).
Proof.
  unfold bind, send, decoded, response_json.
  destruct (world (requests t) req) as [msg|r]; [reflexivity|].
  destruct (resp_body r); reflexivity.
Qed.

(** An exchange whose decoded body is handed to a continuation. *)
Lemma exchange_then {B} (world : World) (req : request) (k : json -> M B) (t : trace) :
  bind (send world req) (fun response => bind (response_json response) k) t
  = match decoded (world (requests t) req) with
    | Return j => k j (t ++ [Http req])
    | Raise e => (Raise e, t ++ [Http req])
    end.
Proof.
  unfold bind, send, decoded, response_json.
  destruct (world (requests t) req) as [msg|r]; [reflexivity|].
  destruct (resp_body r); reflexivity.
Qed.

Ltac by_name :=
  repeat match goal with
         | |- context [String.eqb ?n ?s] =>
             lazymatch n with
             | String _ _ => fail
             | EmptyString => fail
             | _ => destruct (String.eqb_spec n s)
             end
         end.

(** *** One lemma per client method: the request made and the value
    returned *)

Lemma get_channels_spec (world : World) (self : SlackClient) (limit cursor : json)
    (t : trace) :
  get_channels world self limit cursor t
  = match get_channels_params self limit cursor with
    | Raise e => (Raise e, t)
    | Return params =>
        let req := slack_read self "conversations.list" params in
        (decoded (world (requests t) req), t ++ [Http req])
    end.
Proof.
  unfold get_channels, bind at 1, lift.
  destruct (get_channels_params self limit cursor) as [params|e]; [|reflexivity].
  exact (exchange world (slack_read self "conversations.list" params) t).
Qed.

Lemma get_users_spec (world : World) (self : SlackClient) (limit cursor : json)
    (t : trace) :
  get_users world self limit cursor t
  = match get_users_params self limit cursor with
    | Raise e => (Raise e, t)
    | Return params =>
        let req := slack_read self "users.list" params in
        (decoded (world (requests t) req), t ++ [Http req])
    end.
Proof.
  unfold get_users, bind at 1, lift.
  destruct (get_users_params self limit cursor) as [params|e]; [|reflexivity].
  exact (exchange world (slack_read self "users.list" params) t).
Qed.

Lemma get_conversation_info_spec (world : World) (self : SlackClient) (channel_id : json)
    (t : trace) :
  let req := slack_read self "conversations.info" [("channel", channel_id)] in
  get_conversation_info world self channel_id t
  = (and_then (decoded (world (requests t) req)) select_channel, t ++ [Http req]).
Proof.
  intros req. unfold get_conversation_info.
  change (client_get world _ _ _) with (send world req).
  rewrite exchange_then.
  destruct (decoded (world (requests t) req)) as [data|e]; [|reflexivity].
  unfold and_then, select_channel, bind, lift, ret.
  destruct (py_get data "ok" JNull) as [ok|e]; [|reflexivity].
  destruct (truthy ok); [|reflexivity].
  destruct (py_get data "channel" JNull) as [channel|e]; [|reflexivity].
  destruct (truthy channel); [|reflexivity].
  destruct (py_get channel "is_archived" JNull) as [a|e]; [|reflexivity].
  destruct (truthy a); reflexivity.
Qed.

Lemma post_message_spec (world : World) (self : SlackClient) (channel_id text : json)
    (t : trace) :
  let req := slack_write self "chat.postMessage"
               (JObj [("channel", channel_id); ("text", text)]) in
  post_message world self channel_id text t
  = (decoded (world (requests t) req), t ++ [Http req]).
Proof. intros req. exact (exchange world req t). Qed.

Lemma post_reply_spec (world : World) (self : SlackClient)
    (channel_id thread_ts text : json) (t : trace) :
  let req := slack_write self "chat.postMessage"
               (JObj [("channel", channel_id); ("thread_ts", thread_ts);
                      ("text", text)]) in
  post_reply world self channel_id thread_ts text t
  = (decoded (world (requests t) req), t ++ [Http req]).
Proof. intros req. exact (exchange world req t). Qed.

Lemma add_reaction_spec (world : World) (self : SlackClient)
    (channel_id timestamp reaction : json) (t : trace) :
  let req := slack_write self "reactions.add"
               (JObj [("channel", channel_id); ("timestamp", timestamp);
                      ("name", reaction)]) in
  add_reaction world self channel_id timestamp reaction t
  = (decoded (world (requests t) req), t ++ [Http req]).
Proof. intros req. exact (exchange world req t). Qed.

Lemma get_channel_history_spec (world : World) (self : SlackClient)
    (channel_id limit : json) (t : trace) :
  let req := slack_read self "conversations.history"
               [("channel", channel_id); ("limit", JStr (py_str limit))] in
  get_channel_history world self channel_id limit t
  = (decoded (world (requests t) req), t ++ [Http req]).
Proof. intros req. exact (exchange world req t). Qed.

Lemma get_thread_replies_spec (world : World) (self : SlackClient)
    (channel_id thread_ts : json) (t : trace) :
  let req := slack_read self "conversations.replies"
               [("channel", channel_id); ("ts", thread_ts)] in
  get_thread_replies world self channel_id thread_ts t
  = (decoded (world (requests t) req), t ++ [Http req]).
Proof. intros req. exact (exchange world req t). Qed.

Lemma get_user_profile_spec (world : World) (self : SlackClient) (user_id : json)
    (t : trace) :
  let req := slack_read self "users.profile.get"
               [("user", user_id); ("include_labels", JStr "true")] in
  get_user_profile world self user_id t
  = (decoded (world (requests t) req), t ++ [Http req]).
Proof. intros req. exact (exchange world req t). Qed.

(** *** The [try] block as a whole *)

Ltac finish_call spec :=
  intros t; unfold bind; rewrite spec; cbv zeta;
  match goal with
  | |- context [decoded ?o] => destruct (decoded o); reflexivity
  end.

Ltac reject :=
  left; eexists; intros t; reflexivity.

Ltac wrapped :=
  intros; match goal with
          | H : Return _ = Return _ |- _ => injection H as <-; eexists; reflexivity
          | H : Raise _ = Return _ |- _ => discriminate H
          end.

Ltac call_with req spec :=
  right; exists req; exists (fun j => Return (text_content j));
  split; [reflexivity|]; split; [reflexivity|]; split; [reflexivity|];
  split; [wrapped|]; finish_call spec.

(** The [try] block either raises before any request is made, or makes
    exactly one request, to the Slack API and with the client's
    headers, and hands the decoded body to a final step; for every tool
    but [get_conversation_info] that step wraps the body as it is. *)
Lemma dispatch_shape (world : World) (c : SlackClient) (name : string) (arguments : dict) :
  (exists e, forall t, dispatch world c name arguments t = (Raise e, t))
  \/ (exists req post,
        is_slack_url (req_url req) = true
        /\ req_headers req = bot_headers c
        /\ (name <> "get_conversation_info"%string ->
            post = fun j => Return (text_content j))
        /\ (forall j items, post j = Return items ->
            exists payload, items = text_content payload)
        /\ forall t, dispatch world c name arguments t
                     = (and_then (decoded (world (requests t) req)) post,
                        t ++ [Http req])).
Proof.
  unfold dispatch. by_name.
  - destruct (get_channels_params c (dict_get arguments "limit" (JInt 100))
                (dict_get arguments "cursor" JNull)) as [params|err] eqn:P.
    + right. exists (slack_read c "conversations.list" params).
      exists (fun j => Return (text_content j)).
      split; [reflexivity|]. split; [reflexivity|]. split; [reflexivity|].
      split; [wrapped|]. intros t. unfold bind. rewrite get_channels_spec, P. cbv zeta.
      destruct (decoded _); reflexivity.
    + left. exists err. intros t. unfold bind. rewrite get_channels_spec, P. reflexivity.
  - destruct (truthy (dict_get arguments "channel_id" JNull)); cbn [negb]; [|reject].
    right.
    exists (slack_read c "conversations.info"
              [("channel", dict_get arguments "channel_id" JNull)]).
    exists (fun j => and_then (select_channel j)
                       (fun response =>
                          if truthy response then Return (text_content response)
                          else Return (error_envelope "Channel not found or is archived"))).
    split; [reflexivity|]. split; [reflexivity|]. split; [congruence|].
    split.
    { intros j items. destruct (select_channel j) as [response|err]; cbn [and_then];
        [destruct (truthy response)|]; wrapped. }
    intros t. unfold bind. rewrite get_conversation_info_spec. cbv zeta.
    destruct (decoded _) as [data|err]; [|reflexivity].
    cbn [and_then]. destruct (select_channel data) as [response|err]; [|reflexivity].
    cbn [and_then]. destruct (truthy response); reflexivity.
  - destruct (truthy (dict_get arguments "channel_id" JNull)),
             (truthy (dict_get arguments "text" JNull)); cbn [negb orb]; try reject.
    call_with (slack_write c "chat.postMessage"
                 (JObj [("channel", (dict_get arguments "channel_id" JNull));
                        ("text", (dict_get arguments "text" JNull))]))
              post_message_spec.
  - destruct (truthy (dict_get arguments "channel_id" JNull)),
             (truthy (dict_get arguments "thread_ts" JNull)),
             (truthy (dict_get arguments "text" JNull)); cbn [negb orb]; try reject.
    call_with (slack_write c "chat.postMessage"
                 (JObj [("channel", (dict_get arguments "channel_id" JNull));
                        ("thread_ts", (dict_get arguments "thread_ts" JNull));
                        ("text", (dict_get arguments "text" JNull))]))
              post_reply_spec.
  - destruct (truthy (dict_get arguments "channel_id" JNull)),
             (truthy (dict_get arguments "timestamp" JNull)),
             (truthy (dict_get arguments "reaction" JNull)); cbn [negb orb]; try reject.
    call_with (slack_write c "reactions.add"
                 (JObj [("channel", (dict_get arguments "channel_id" JNull));
                        ("timestamp", (dict_get arguments "timestamp" JNull));
                        ("name", (dict_get arguments "reaction" JNull))]))
              add_reaction_spec.
  - destruct (truthy (dict_get arguments "channel_id" JNull)); cbn [negb]; [|reject].
    call_with (slack_read c "conversations.history"
                 [("channel", (dict_get arguments "channel_id" JNull));
                  ("limit", JStr (py_str (dict_get arguments "limit" (JInt 10))))])
              get_channel_history_spec.
  - destruct (truthy (dict_get arguments "channel_id" JNull)),
             (truthy (dict_get arguments "thread_ts" JNull)); cbn [negb orb]; try reject.
    call_with (slack_read c "conversations.replies"
                 [("channel", (dict_get arguments "channel_id" JNull));
                  ("ts", (dict_get arguments "thread_ts" JNull))])
              get_thread_replies_spec.
  - destruct (get_users_params c (dict_get arguments "limit" (JInt 100))
                (dict_get arguments "cursor" JNull)) as [params|err] eqn:P.
    + right. exists (slack_read c "users.list" params).
      exists (fun j => Return (text_content j)).
      split; [reflexivity|]. split; [reflexivity|]. split; [reflexivity|].
      split; [wrapped|]. intros t. unfold bind. rewrite get_users_spec, P. cbv zeta.
      destruct (decoded _); reflexivity.
    + left. exists err. intros t. unfold bind. rewrite get_users_spec, P. reflexivity.
  - destruct (truthy (dict_get arguments "user_id" JNull)); cbn [negb]; [|reject].
    call_with (slack_read c "users.profile.get"
                 [("user", (dict_get arguments "user_id" JNull));
                  ("include_labels", JStr "true")])
              get_user_profile_spec.
  - reject.
Qed.

(** Once the client exists, [call_tool] returns: whatever the [try]
    block raises is turned into one text item. *)
Lemma call_tool_returns_once_connected (world : World) (env : Env) (name : string)
    (arguments : dict) (t : trace) (c : SlackClient) :
  fst (connect world env t) = Return c ->
  exists payload, fst (call_tool world env name arguments t) = Return (text_content payload).
Proof.
  intros H. rewrite (call_tool_connected _ _ _ _ _ _ H). unfold try_except.
  destruct (dispatch_shape world c name arguments)
    as [[e D] | (req & post & _ & _ & _ & W & D)]; rewrite D.
  - eexists. reflexivity.
  - destruct (decoded _) as [j|e]; cbn [and_then]; [|eexists; reflexivity].
    destruct (post j) as [items|e] eqn:P; [|eexists; reflexivity].
    destruct (W _ _ P) as [payload ->]. exists payload. reflexivity.
Qed.

(** ** The tool registry *)

(** C5, as the code has it: [list_tools] returns the registry
    [TOOLS] whatever was done before, the registry holds exactly 9
    descriptors whose names are, in order, slack_list_channels,
    slack_post_message, slack_reply_to_thread, slack_add_reaction,
    slack_get_channel_history, slack_get_thread_replies, slack_get_users,
    slack_get_user_profile, get_conversation_info, and no request leaves
    the process.  Its one effect is the line "Received ListToolsRequest"
    written on the diagnostic stream. *)
Theorem list_tools_registry :
  forall t : trace,
    list_tools t = (Return TOOLS, t ++ [Stderr "Received ListToolsRequest"])
    /\ requests (snd (list_tools t)) = requests t
    /\ List.length TOOLS = 9%nat
    /\ tool_names
       = ["slack_list_channels"; "slack_post_message"; "slack_reply_to_thread";
          "slack_add_reaction"; "slack_get_channel_history";
          "slack_get_thread_replies"; "slack_get_users";
          "slack_get_user_profile"; "get_conversation_info"]%string.
Proof.
  intros t. split; [reflexivity|]. split.
  - unfold list_tools, bind, print_stderr, ret. cbn [snd].
    apply requests_stderr.
  - split; reflexivity.
Qed.

(** C5 as stated does not hold: [list_tools] is not free of I/O, each
    invocation writes a line on the diagnostic stream. *)
Lemma list_tools_writes_to_stderr :
  snd (list_tools []) = [Stderr "Received ListToolsRequest"].
Proof. reflexivity. Qed.

(** ** The credential fetch *)



(** ** The dispatcher *)

(** C1 fails on the code: the credential fetch stands before the [try]
    block, so its failure is not turned into an error envelope.  With a
    broker that answers 401, [call_tool] raises the status error. *)
Theorem call_tool_raises_when_fetch_fails :
  call_tool (network unauthorized (ok_response (JObj [("ok", JBool true)])))
    sample_env "slack_list_channels" [] []
  = (Raise (Exn HTTPStatusError "Client error '401 Unauthorized'"),
     [Stderr "Received CallToolRequest: slack_list_channels";
      Http (credential_request sample_env)]).
Proof. reflexivity. Qed.

(** C9: every invocation of [call_tool] makes the credential request
    first, that request asks the broker for a refresh, at most one
    more request follows, and it is a Slack request carrying the
    headers of the client built from the credentials this very fetch
    returned. *)
Theorem call_tool_fetches_fresh_credentials (world : World) (env : Env)
    (name : string) (arguments : dict) (t : trace) :
  lookup "refresh_token" (req_params (credential_request env)) = Some (JStr "true")
  /\ req_method (credential_request env) = GET
  /\ exists rest,
       requests (snd (call_tool world env name arguments t))
       = requests t ++ credential_request env :: rest
       /\ (List.length rest <= 1)%nat
       /\ forall req, In req rest ->
            is_slack_url (req_url req) = true
            /\ exists credentials c,
                 fetched (world (requests t) (credential_request env)) = Return credentials
                 /\ client_of credentials = Return c
                 /\ req_headers req = bot_headers c.
Proof.
  split; [reflexivity|]. split; [reflexivity|].
  destruct (fst (connect world env t)) as [c|e] eqn:C.
  - rewrite (call_tool_connected _ _ _ _ _ _ C). unfold try_except.
    assert (F : exists credentials,
               fetched (world (requests t) (credential_request env)) = Return credentials
               /\ client_of credentials = Return c).
    { rewrite connect_spec in C. cbn [fst] in C.
      destruct (fetched _) as [credentials|e]; [|discriminate C].
      exists credentials. split; [reflexivity | exact C]. }
    destruct F as (credentials & F1 & F2).
    destruct (dispatch_shape world c name arguments)
      as [[e D] | (req & post & U & Hd & _ & _ & D)]; rewrite D.
    + exists []. rewrite on_error_spec. cbn [snd].
      rewrite requests_stderr, requests_connected.
      split; [reflexivity|]. split; [simpl; lia|]. intros req [].
    + exists [req]. split.
      * destruct (and_then _ post) as [items|e]; [|rewrite on_error_spec]; cbn [snd];
          [|rewrite requests_stderr]; rewrite requests_http, requests_connected,
            <- app_assoc; reflexivity.
      * split; [simpl; lia|]. intros req' [<-|[]]. split; [exact U|].
        exists credentials, c. auto.
  - rewrite (call_tool_not_connected _ _ _ _ _ _ C). cbn [snd].
    exists []. rewrite requests_connected.
    split; [reflexivity|]. split; [simpl; lia|]. intros req [].
Qed.

(** Two invocations in a row against a broker that rotates its token:
    each remote call carries the token of its own fetch. *)
Example tokens_are_not_reused :
  let arguments := [("channel_id", JStr "C123"); ("text", JStr "hi")]%string in
  let first := call_tool rotating_network sample_env "slack_post_message" arguments [] in
  let second := call_tool rotating_network sample_env "slack_post_message" arguments
                  (snd first) in
  map (fun req => (req_url req, header "Authorization" (req_headers req)))
      (requests (snd second))
  = [("https://api.nango.dev/connection/conn-1", Some "Bearer nango-secret");
     ("https://slack.com/api/chat.postMessage", Some "Bearer xoxb-0");
     ("https://api.nango.dev/connection/conn-1", Some "Bearer nango-secret");
     ("https://slack.com/api/chat.postMessage", Some "Bearer xoxb-2")]%string.
Proof. vm_compute. reflexivity. Qed.

(** C3, as the code has it: for a name that is none of the 9
    registered ones, the credential request is the one outbound call
    of the invocation, whatever the broker answers, and none goes to
    the Slack API; and once the statements before the [try] block have
    built the client (the fetch returned and the token and the team
    were read from its result without an exception), [call_tool]
    returns exactly one text item holding the JSON object
    [{"error": "Unknown tool: <name>"}]. *)
Theorem unknown_tool_envelope (world : World) (env : Env) (name : string)
    (arguments : dict) (t : trace) :
  ~ In name tool_names ->
  requests (snd (call_tool world env name arguments t))
  = requests t ++ [credential_request env]
  /\ forall c, fst (connect world env t) = Return c ->
       call_tool world env name arguments t
       = (Return [MkTextContent "text"
                    (json_dumps (JObj [("error", JStr ("Unknown tool: " ++ name)%string)]))],
          connected_trace env name t
            ++ [Stderr ("Error executing tool: Unknown tool: " ++ name)%string]).
Proof.
  intros Hname.
  assert (R : forall c, fst (connect world env t) = Return c ->
                call_tool world env name arguments t
                = (Return [MkTextContent "text"
                             (json_dumps
                                (JObj [("error", JStr ("Unknown tool: " ++ name)%string)]))],
                   connected_trace env name t
                     ++ [Stderr ("Error executing tool: Unknown tool: " ++ name)%string])).
  { intros c C.
    assert (D : forall t', dispatch world c name arguments t'
                           = (Raise (Exn ValueError ("Unknown tool: " ++ name)%string), t')).
    { intros t'. unfold dispatch. by_name; try reflexivity;
        exfalso; apply Hname; subst name; unfold tool_names; simpl; tauto. }
    rewrite (call_tool_connected _ _ _ _ _ _ C). unfold try_except. rewrite D.
    rewrite on_error_spec. reflexivity. }
  split; [|exact R].
  destruct (fst (connect world env t)) as [c|e] eqn:C.
  - rewrite (R c eq_refl). cbn [snd]. rewrite requests_stderr. apply requests_connected.
  - rewrite (call_tool_not_connected _ _ _ _ _ _ C). cbn [snd]. apply requests_connected.
Qed.

(** The unknown tool of the specification, with a broker that grants
    credentials. *)
Lemma unknown_tool_envelope_witness :
  let world := network (ok_response (granted "xoxb-1" "T1"))
                 (ok_response (JObj [("ok", JBool true)])) in
  requests (snd (call_tool world sample_env "slack_delete_message" [] []))
  = [credential_request sample_env]
  /\ call_tool world sample_env "slack_delete_message" [] []
     = (Return [MkTextContent "text"
                  ("{" ++ dq ++ "error" ++ dq ++ ": " ++ dq
                   ++ "Unknown tool: slack_delete_message" ++ dq ++ "}")%string],
        [Stderr "Received CallToolRequest: slack_delete_message";
         Http (credential_request sample_env);
         Stderr "Error executing tool: Unknown tool: slack_delete_message"]).
Proof.
  intros world.
  assert (U : ~ In "slack_delete_message"%string tool_names)
    by (unfold tool_names; simpl; intuition discriminate).
  split.
  - exact (proj1 (unknown_tool_envelope world sample_env "slack_delete_message" [] [] U)).
  - exact (proj2 (unknown_tool_envelope world sample_env "slack_delete_message" [] [] U)
             (SlackClient_init (JStr "xoxb-1") (JStr "T1")) eq_refl).
Defined.

(** C3 as stated does not hold: an unknown tool name does not mean zero
    outbound calls, the credential request is made before the name is
    looked at. *)
Lemma unknown_tool_still_fetches_credentials :
  requests (snd (call_tool (network (ok_response (granted "xoxb-1" "T1"))
                              (ok_response (JObj [("ok", JBool true)])))
                   sample_env "slack_delete_message" [] []))
  = [credential_request sample_env].
Proof. reflexivity. Qed.

Ltac missing_case H :=
  unfold dispatch; simpl; rewrite H; rewrite ?orb_true_r; cbn [negb orb];
  unfold raise; rewrite on_error_spec; cbn [exn_msg].

(** C4, as the code has it: for a registered tool with required
    arguments, when one of them is absent or empty no request goes to
    the Slack API, whatever the broker answers, the credential request
    being the only outbound call; and once the statements before the
    [try] block have built the client (the fetch returned and the
    token and the team were read from its result without an
    exception), [call_tool] returns an error envelope whose message
    lists the required arguments of the tool, the missing ones among
    them. *)
Theorem missing_argument_rejected (world : World) (env : Env) (tool : Tool)
    (arg : string) (arguments : dict) (t : trace) :
  In tool TOOLS ->
  In arg (required_args tool) ->
  missing arguments arg ->
  requests (snd (call_tool world env (name tool) arguments t))
  = requests t ++ [credential_request env]
  /\ forall c, fst (connect world env t) = Return c ->
       exists message,
         call_tool world env (name tool) arguments t
         = (Return (error_envelope message),
            connected_trace env (name tool) t
              ++ [Stderr ("Error executing tool: " ++ message)%string])
         /\ forall r, In r (required_args tool) -> mentions r message = true.
Proof.
  intros Htool Harg Hmiss. unfold missing in Hmiss.
  assert (R : forall c, fst (connect world env t) = Return c ->
                exists message,
                  call_tool world env (name tool) arguments t
                  = (Return (error_envelope message),
                     connected_trace env (name tool) t
                       ++ [Stderr ("Error executing tool: " ++ message)%string])
                  /\ forall r, In r (required_args tool) -> mentions r message = true).
  { intros c C. rewrite (call_tool_connected _ _ _ _ _ _ C). unfold try_except.
    simpl in Htool.
    repeat (destruct Htool as [<- | Htool]; [simpl in Harg |]); try contradiction;
      repeat (destruct Harg as [<- | Harg]); try contradiction;
      missing_case Hmiss; eexists; (split; [reflexivity|]);
      intros r Hr; simpl in Hr;
      repeat (destruct Hr as [<- | Hr]; [reflexivity|]); contradiction. }
  split; [|exact R].
  destruct (fst (connect world env t)) as [c|e] eqn:C.
  - destruct (R c eq_refl) as (message & -> & _). cbn [snd].
    rewrite requests_stderr. apply requests_connected.
  - rewrite (call_tool_not_connected _ _ _ _ _ _ C). cbn [snd].
    apply requests_connected.
Qed.

(** [slack_post_message] with an empty text. *)
Lemma missing_argument_rejected_witness :
  let world := network (ok_response (granted "xoxb-1" "T1"))
                 (ok_response (JObj [("ok", JBool true)])) in
  let arguments := [("channel_id", JStr "C123"); ("text", JStr EmptyString)]%string in
  requests (snd (call_tool world sample_env "slack_post_message" arguments []))
  = [credential_request sample_env]
  /\ forall c, fst (connect world sample_env []) = Return c ->
       exists message,
         call_tool world sample_env "slack_post_message" arguments []
         = (Return (error_envelope message),
            connected_trace sample_env "slack_post_message" []
              ++ [Stderr ("Error executing tool: " ++ message)%string])
         /\ forall r, In r ["channel_id"; "text"]%string -> mentions r message = true.
Proof.
  intros world arguments.
  refine (missing_argument_rejected world sample_env
            (nth 1 TOOLS (MkTool EmptyString EmptyString JNull)) "text" arguments [] _ _ _).
  - simpl. tauto.
  - simpl. tauto.
  - reflexivity.
Defined.

(** C4 as stated does not hold: with a required argument missing and
    a broker that answers 401, no error envelope naming the argument is
    returned; the credentials are fetched before the arguments are
    looked at, and the failed fetch ends the invocation. *)
Lemma missing_argument_not_reported_when_fetch_fails :
  call_tool (network unauthorized (ok_response (JObj [("ok", JBool true)])))
    sample_env "slack_post_message" [("channel_id", JStr "C123")]%string []
  = (Raise (Exn HTTPStatusError "Client error '401 Unauthorized'"),
     [Stderr "Received CallToolRequest: slack_post_message";
      Http (credential_request sample_env)]).
Proof. reflexivity. Qed.

(** ** Limits *)

Lemma py_min_int (n bound : Z) : py_min (JInt n) bound = Return (JInt (Z.min n bound)).
Proof.
  unfold py_min. destruct (Z.ltb_spec bound n).
  - rewrite Z.min_r by lia. reflexivity.
  - rewrite Z.min_l by lia. reflexivity.
Qed.

Lemma get_channels_params_int (self : SlackClient) (n : Z) (cursor : json) :
  exists params,
    get_channels_params self (JInt n) cursor = Return params
    /\ lookup "limit" params = Some (JStr (str_int (Z.min n 200))).
Proof.
  unfold get_channels_params. rewrite py_min_int. cbn [py_str py_repr].
  destruct (truthy cursor); eexists; split; reflexivity.
Qed.

Lemma get_users_params_int (self : SlackClient) (n : Z) (cursor : json) :
  exists params,
    get_users_params self (JInt n) cursor = Return params
    /\ lookup "limit" params = Some (JStr (str_int (Z.min n 200))).
Proof.
  unfold get_users_params. rewrite py_min_int. cbn [py_str py_repr].
  destruct (truthy cursor); eexists; split; reflexivity.
Qed.

Lemma dispatch_list_channels (world : World) (c : SlackClient) (arguments : dict) :
  dispatch world c "slack_list_channels" arguments
  = bind (get_channels world c (dict_get arguments "limit" (JInt 100))
            (dict_get arguments "cursor" JNull))
         (fun response => ret (text_content response)).
Proof. reflexivity. Qed.

Lemma dispatch_get_users (world : World) (c : SlackClient) (arguments : dict) :
  dispatch world c "slack_get_users" arguments
  = bind (get_users world c (dict_get arguments "limit" (JInt 100))
            (dict_get arguments "cursor" JNull))
         (fun response => ret (text_content response)).
Proof. reflexivity. Qed.

Ltac requests_of_call :=
  match goal with
  | |- context [decoded ?o] => destruct (decoded o)
  end;
  unfold ret; rewrite ?on_error_spec; cbn [snd]; rewrite ?requests_stderr;
  rewrite requests_http, requests_connected, <- app_assoc; reflexivity.

(** C6: for [slack_list_channels] and [slack_get_users], with an
    integer limit [n] supplied, or with no limit supplied and [n] the
    default 100, the request to the Slack API carries the limit
    [min n 200]. *)
Theorem limit_is_clamped (world : World) (env : Env) (tool endpoint : string)
    (arguments : dict) (t : trace) (c : SlackClient) (n : Z) :
  In (tool, endpoint) [("slack_list_channels", "conversations.list");
                       ("slack_get_users", "users.list")]%string ->
  lookup "limit" arguments = Some (JInt n)
  \/ (lookup "limit" arguments = None /\ n = 100%Z) ->
  fst (connect world env t) = Return c ->
  exists params,
    lookup "limit" params = Some (JStr (str_int (Z.min n 200)))
    /\ requests (snd (call_tool world env tool arguments t))
       = requests t ++ [credential_request env; slack_read c endpoint params].
Proof.
  intros Htool Hlimit C.
  assert (L : dict_get arguments "limit" (JInt 100) = JInt n).
  { unfold dict_get. destruct Hlimit as [-> | [-> ->]]; reflexivity. }
  rewrite (call_tool_connected _ _ _ _ _ _ C). unfold try_except.
  destruct Htool as [E | [E | []]]; injection E as <- <-;
    [rewrite dispatch_list_channels | rewrite dispatch_get_users]; rewrite L.
  - destruct (get_channels_params_int c n (dict_get arguments "cursor" JNull))
      as (params & P & Q).
    exists params. split; [exact Q|].
    unfold bind at 1. rewrite get_channels_spec, P. cbv zeta.
    requests_of_call.
  - destruct (get_users_params_int c n (dict_get arguments "cursor" JNull))
      as (params & P & Q).
    exists params. split; [exact Q|].
    unfold bind at 1. rewrite get_users_spec, P. cbv zeta.
    requests_of_call.
Qed.

(** A limit of 500 for [slack_list_channels]. *)
Lemma limit_is_clamped_witness :
  let world := network (ok_response (granted "xoxb-1" "T1"))
                 (ok_response (JObj [("ok", JBool true)])) in
  exists params,
    lookup "limit" params = Some (JStr "200")
    /\ requests (snd (call_tool world sample_env "slack_list_channels"
                        [("limit", JInt 500)]%string []))
       = [credential_request sample_env;
          slack_read (SlackClient_init (JStr "xoxb-1") (JStr "T1"))
            "conversations.list" params].
Proof.
  intros world.
  exact (limit_is_clamped world sample_env "slack_list_channels" "conversations.list"
           [("limit", JInt 500)]%string []
           (SlackClient_init (JStr "xoxb-1") (JStr "T1")) 500
           (or_introl eq_refl) (or_introl eq_refl) eq_refl).
Defined.

(** The URLs requested for a limit of 500 and for no limit at all. *)
Example clamped_urls :
  let world := network (ok_response (granted "xoxb-1" "T1"))
                 (ok_response (JObj [("ok", JBool true)])) in
  let urls tool arguments :=
    map req_url (requests (snd (call_tool world sample_env tool arguments []))) in
  urls "slack_list_channels" [("limit", JInt 500)]
  = ["https://api.nango.dev/connection/conn-1";
     "https://slack.com/api/conversations.list?types=public_channel&exclude_archived=true&limit=200&team_id=T1"]
  /\ urls "slack_get_users" [("limit", JInt 500); ("cursor", JStr "dXNlcjpVMDYx")]
     = ["https://api.nango.dev/connection/conn-1";
        "https://slack.com/api/users.list?limit=200&team_id=T1&cursor=dXNlcjpVMDYx"]
  /\ urls "slack_list_channels" []
     = ["https://api.nango.dev/connection/conn-1";
        "https://slack.com/api/conversations.list?types=public_channel&exclude_archived=true&limit=100&team_id=T1"]
  /\ urls "slack_get_users" [("limit", JInt 7)]
     = ["https://api.nango.dev/connection/conn-1";
        "https://slack.com/api/users.list?limit=7&team_id=T1"].
Proof. vm_compute. repeat split. Qed.

(** ** Conversation info *)

Lemma select_channel_not_found (data : json) :
  reports_missing data \/ reports_archived data ->
  select_channel data = Return JNull.
Proof.
  unfold select_channel.
  intros [(fields & -> & H) | (fields & channel & -> & Hok & Hch & Harch)];
    cbn [py_get].
  - destruct (truthy (dict_get fields "ok" JNull)); [|reflexivity].
    destruct H as [H|H]; [discriminate H|]. rewrite H. reflexivity.
  - rewrite Hok, Hch. cbn [py_get]. rewrite Harch.
    destruct (truthy (JObj channel)); reflexivity.
Qed.

Lemma select_channel_live (data v : json) :
  select_channel data = Return v ->
  truthy v = true ->
  exists channel, v = JObj channel /\ reports_live data channel.
Proof.
  unfold select_channel. intros S T.
  destruct data as [| | | |items|fields]; try discriminate S. cbn [py_get] in S.
  destruct (truthy (dict_get fields "ok" JNull)) eqn:Hok;
    [|injection S as <-; discriminate T].
  destruct (truthy (dict_get fields "channel" JNull)) eqn:Hch;
    [|injection S as <-; discriminate T].
  destruct (dict_get fields "channel" JNull) as [| | | |items|channel] eqn:Hv;
    try discriminate S.
  cbn [py_get] in S.
  destruct (truthy (dict_get channel "is_archived" JNull)) eqn:Harch;
    cbn [negb] in S; injection S as <-; [discriminate T|].
  exists channel. split; [reflexivity|].
  exists fields. repeat split; assumption.
Qed.

Lemma dispatch_conversation_info (world : World) (c : SlackClient) (arguments : dict) :
  dispatch world c "get_conversation_info" arguments
  = let channel_id := dict_get arguments "channel_id" JNull in
    if negb (truthy channel_id) then
      raise (Exn ValueError "Missing required argument: channel_id")
    else
      bind (get_conversation_info world c channel_id)
        (fun response =>
           if truthy response then ret (text_content response)
           else ret (error_envelope "Channel not found or is archived")).
Proof. reflexivity. Qed.

(** C7: when the Slack API answers the lookup of a channel with a
    response that reports it archived or not existing,
    [get_conversation_info] through [call_tool] returns the same
    envelope ["Channel not found or is archived"] in both cases; and
    whatever the response, the result is an error envelope unless the
    response is ok, holds a channel and the channel is not archived, in
    which case it is that channel. *)
Theorem conversation_info_not_found (world : World) (env : Env) (arguments : dict)
    (t : trace) (c : SlackClient) (r : response) (data : json) :
  let channel_id := dict_get arguments "channel_id" JNull in
  let t1 := connected_trace env "get_conversation_info" t in
  let req := slack_read c "conversations.info" [("channel", channel_id)] in
  fst (connect world env t) = Return c ->
  truthy channel_id = true ->
  world (requests t1) req = Responded r ->
  resp_body r = BodyJson data ->
  (reports_missing data \/ reports_archived data ->
   call_tool world env "get_conversation_info" arguments t
   = (Return (error_envelope "Channel not found or is archived"), t1 ++ [Http req]))
  /\ exists items,
       fst (call_tool world env "get_conversation_info" arguments t) = Return items
       /\ ((exists message, items = error_envelope message)
           \/ (exists channel,
                 reports_live data channel /\ items = text_content (JObj channel))).
Proof.
  intros channel_id t1 req C Hid Hworld Hbody.
  rewrite (call_tool_connected _ _ _ _ _ _ C). unfold try_except.
  rewrite dispatch_conversation_info. cbv zeta. fold channel_id. rewrite Hid.
  cbn [negb]. unfold bind. rewrite get_conversation_info_spec. cbv zeta.
  fold req t1. rewrite Hworld. unfold decoded. rewrite Hbody. cbn [and_then].
  split.
  - intros H. rewrite (select_channel_not_found _ H). reflexivity.
  - destruct (select_channel data) as [v|e] eqn:S.
    + destruct (truthy v) eqn:T.
      * destruct (select_channel_live _ _ S T) as (channel & -> & L).
        eexists. split; [reflexivity|]. right. exists channel. auto.
      * eexists. split; [reflexivity|]. left. eexists. reflexivity.
    + rewrite on_error_spec. eexists. split; [reflexivity|]. left. eexists. reflexivity.
Qed.

(** A channel the Slack API flags as archived. *)
Lemma conversation_info_not_found_witness :
  let world := network (ok_response (granted "xoxb-1" "T1"))
                 (ok_response (JObj [("ok", JBool true);
                                     ("channel", JObj [("id", JStr "C1");
                                                       ("is_archived", JBool true)])])) in
  let c := SlackClient_init (JStr "xoxb-1") (JStr "T1") in
  call_tool world sample_env "get_conversation_info" [("channel_id", JStr "C1")]%string []
  = (Return (error_envelope "Channel not found or is archived"),
     connected_trace sample_env "get_conversation_info" []
       ++ [Http (slack_read c "conversations.info" [("channel", JStr "C1")])]).
Proof.
  intros world c.
  refine (proj1 (conversation_info_not_found world sample_env
                   [("channel_id", JStr "C1")]%string [] c
                   (Response 200 "OK"
                      (BodyJson (JObj [("ok", JBool true);
                                       ("channel", JObj [("id", JStr "C1");
                                                         ("is_archived", JBool true)])])))
                   _ eq_refl eq_refl eq_refl eq_refl) _).
  right. eexists. eexists. repeat split; reflexivity.
Defined.

(** An archived channel and a channel that does not exist give the
    same answer, while a live channel gives its metadata. *)
Example archived_and_missing_look_alike :
  let ask slack :=
    fst (call_tool (network (ok_response (granted "xoxb-1" "T1")) (ok_response slack))
           sample_env "get_conversation_info" [("channel_id", JStr "C1")]%string []) in
  ask (JObj [("ok", JBool true);
             ("channel", JObj [("id", JStr "C1"); ("is_archived", JBool true)])])
  = ask (JObj [("ok", JBool false); ("error", JStr "channel_not_found")])
  /\ ask (JObj [("ok", JBool true);
                ("channel", JObj [("id", JStr "C1"); ("is_archived", JBool false)])])
     = Return (text_content (JObj [("id", JStr "C1"); ("is_archived", JBool false)])).
Proof. split; reflexivity. Qed.

(** ** Successful calls *)

(** C8, as the code has it: for every tool but
    [get_conversation_info], when the invocation makes the remote
    request and the Slack API answers it with a JSON body, [call_tool]
    returns one text item holding the serialization of that body, as
    it is. *)
Theorem remote_result_passed_through (world : World) (env : Env) (name : string)
    (arguments : dict) (t : trace) (req : request) (r : response) (j : json) :
  name <> "get_conversation_info"%string ->
  requests (snd (call_tool world env name arguments t))
  = requests t ++ [credential_request env; req] ->
  world (requests (connected_trace env name t)) req = Responded r ->
  resp_body r = BodyJson j ->
  call_tool world env name arguments t
  = (Return [MkTextContent "text" (json_dumps j)],
     connected_trace env name t ++ [Http req]).
Proof.
  intros Hname Hreq Hworld Hbody.
  destruct (fst (connect world env t)) as [c|e0] eqn:C.
  - rewrite (call_tool_connected _ _ _ _ _ _ C) in *. unfold try_except in *.
    destruct (dispatch_shape world c name arguments)
      as [[e D] | (req' & post & _ & _ & Hpost & _ & D)]; rewrite D in *.
    + rewrite on_error_spec in Hreq. cbn [snd] in Hreq.
      rewrite requests_stderr, requests_connected in Hreq.
      apply app_inv_head in Hreq. discriminate Hreq.
    + assert (E : req' = req).
      { destruct (and_then _ post) as [items|e] in Hreq;
          [|rewrite on_error_spec in Hreq]; cbn [snd] in Hreq;
          [|rewrite requests_stderr in Hreq];
          rewrite requests_http, requests_connected, <- app_assoc in Hreq;
          apply app_inv_head in Hreq; injection Hreq as ->; reflexivity. }
      subst req'. rewrite Hworld. unfold decoded. rewrite Hbody.
      rewrite (Hpost Hname). reflexivity.
  - rewrite (call_tool_not_connected _ _ _ _ _ _ C) in Hreq. cbn [snd] in Hreq.
    rewrite requests_connected in Hreq.
    apply app_inv_head in Hreq. discriminate Hreq.
Qed.

(** The scenario of the specification: [slack_post_message] against a
    Slack API that answers [{"ok": true, "ts": "1.1"}]. *)
Lemma remote_result_passed_through_witness :
  let world := network (ok_response (granted "xoxb-1" "T1"))
                 (ok_response (JObj [("ok", JBool true); ("ts", JStr "1.1")])) in
  let c := SlackClient_init (JStr "xoxb-1") (JStr "T1") in
  call_tool world sample_env "slack_post_message"
    [("channel_id", JStr "C123"); ("text", JStr "hi")]%string []
  = (Return [MkTextContent "text"
               ("{" ++ dq ++ "ok" ++ dq ++ ": true, " ++ dq ++ "ts" ++ dq ++ ": "
                ++ dq ++ "1.1" ++ dq ++ "}")%string],
     connected_trace sample_env "slack_post_message" []
       ++ [Http (slack_write c "chat.postMessage"
                   (JObj [("channel", JStr "C123"); ("text", JStr "hi")]))]).
Proof.
  intros world c.
  refine (remote_result_passed_through world sample_env "slack_post_message"
            [("channel_id", JStr "C123"); ("text", JStr "hi")]%string []
            (slack_write c "chat.postMessage"
               (JObj [("channel", JStr "C123"); ("text", JStr "hi")]))
            (Response 200 "OK" (BodyJson (JObj [("ok", JBool true); ("ts", JStr "1.1")])))
            (JObj [("ok", JBool true); ("ts", JStr "1.1")])
            _ eq_refl eq_refl eq_refl).
  discriminate.
Defined.

(** C8 as stated does not hold for [get_conversation_info]: the remote
    call succeeds with [{"ok": true, "channel": {"id": "C1"}}], and the
    text returned is the serialization of the channel alone. *)
Lemma conversation_info_returns_channel_only :
  let raw := JObj [("ok", JBool true); ("channel", JObj [("id", JStr "C1")])] in
  let world := network (ok_response (granted "xoxb-1" "T1")) (ok_response raw) in
  fst (call_tool world sample_env "get_conversation_info"
         [("channel_id", JStr "C1")]%string [])
  = Return [MkTextContent "text" ("{" ++ dq ++ "id" ++ dq ++ ": " ++ dq ++ "C1" ++ dq ++ "}")%string]
  /\ json_dumps raw
     = ("{" ++ dq ++ "ok" ++ dq ++ ": true, " ++ dq ++ "channel" ++ dq ++ ": {"
        ++ dq ++ "id" ++ dq ++ ": " ++ dq ++ "C1" ++ dq ++ "}}")%string
  /\ map req_url (requests (snd (call_tool world sample_env "get_conversation_info"
                                   [("channel_id", JStr "C1")]%string [])))
     = ["https://api.nango.dev/connection/conn-1";
        "https://slack.com/api/conversations.info?channel=C1"]%string.
Proof. repeat split. Qed.

(** ** The fixed parameters of the channel list *)

Lemma get_channels_params_fixed (self : SlackClient) (limit cursor : json) (params : dict) :
  get_channels_params self limit cursor = Return params ->
  lookup "types" params = Some (JStr "public_channel")
  /\ lookup "exclude_archived" params = Some (JStr "true")
  /\ String.prefix
       "https://slack.com/api/conversations.list?types=public_channel&exclude_archived=true&"
       (req_url (slack_read self "conversations.list" params)) = true.
Proof.
  unfold get_channels_params.
  destruct (py_min limit 200) as [m|e]; [|discriminate].
  intros H. injection H as <-.
  destruct (truthy cursor); repeat split; reflexivity.
Qed.

(** C10: whatever the arguments, a request that an invocation of
    [slack_list_channels] adds to the trace is either the credential
    request or a read of [conversations.list] whose parameters hold
    [types=public_channel] and [exclude_archived=true], at the head of
    its query string. *)
Theorem list_channels_fixed_parameters (world : World) (env : Env) (arguments : dict)
    (t : trace) (req : request) :
  In req (requests (snd (call_tool world env "slack_list_channels" arguments t))) ->
  In req (requests t)
  \/ req = credential_request env
  \/ exists c params,
       req = slack_read c "conversations.list" params
       /\ lookup "types" params = Some (JStr "public_channel")
       /\ lookup "exclude_archived" params = Some (JStr "true")
       /\ String.prefix
            "https://slack.com/api/conversations.list?types=public_channel&exclude_archived=true&"
            (req_url req) = true.
Proof.
  destruct (fst (connect world env t)) as [c|e] eqn:C.
  - rewrite (call_tool_connected _ _ _ _ _ _ C). unfold try_except.
    rewrite dispatch_list_channels. unfold bind. rewrite get_channels_spec.
    destruct (get_channels_params c _ _) as [params|e] eqn:P; cbv zeta.
    + match goal with |- context [decoded ?o] => destruct (decoded o) end;
        unfold ret; rewrite ?on_error_spec; cbn [snd]; rewrite ?requests_stderr;
        rewrite requests_http, requests_connected, <- app_assoc; cbn [app];
        intros H; apply in_app_or in H;
        (destruct H as [H | [<- | [<- | []]]];
         [left; exact H | right; left; reflexivity |]);
        right; right; exists c, params;
        destruct (get_channels_params_fixed _ _ _ _ P) as (P1 & P2 & P3); auto.
    + rewrite on_error_spec. cbn [snd]. rewrite requests_stderr, requests_connected.
      intros H. apply in_app_or in H.
      destruct H as [H | [<- | []]]; [left; exact H | right; left; reflexivity].
  - rewrite (call_tool_not_connected _ _ _ _ _ _ C). cbn [snd].
    rewrite requests_connected.
    intros H. apply in_app_or in H.
    destruct H as [H | [<- | []]]; [left; exact H | right; left; reflexivity].
Qed.

(** The request of [slack_list_channels] with a cursor and a limit. *)
Lemma list_channels_fixed_parameters_witness :
  let world := network (ok_response (granted "xoxb-1" "T1"))
                 (ok_response (JObj [("ok", JBool true)])) in
  let arguments := [("limit", JInt 5); ("cursor", JStr "next page")]%string in
  let req := Request GET
               "https://slack.com/api/conversations.list?types=public_channel&exclude_archived=true&limit=5&team_id=T1&cursor=next+page"
               [("Authorization", "Bearer xoxb-1"); ("Content-Type", "application/json")]%string
               [] None in
  In req []
  \/ req = credential_request sample_env
  \/ exists c params,
       req = slack_read c "conversations.list" params
       /\ lookup "types" params = Some (JStr "public_channel")
       /\ lookup "exclude_archived" params = Some (JStr "true")
       /\ String.prefix
            "https://slack.com/api/conversations.list?types=public_channel&exclude_archived=true&"
            (req_url req) = true.
Proof.
  intros world arguments req.
  refine (list_channels_fixed_parameters world sample_env arguments [] req _).
  vm_compute. right. left. reflexivity.
Defined.

(** * Further properties of the handlers *)

(** ** What leaves [call_tool] *)

(** Lines 359-366 of [call_tool] succeed exactly when the broker
    answers with a status in 200..299 and a JSON object whose members
    ["credentials"] and ["connection_config"] are objects where they
    are present; the client then carries the token and the team read
    from them, [None] where they are absent. *)
Theorem connect_succeeds_exactly (world : World) (env : Env) (t : trace) (c : SlackClient) :
  fst (connect world env t) = Return c <->
  exists r fields creds config,
    world (requests t) (credential_request env) = Responded r
    /\ (200 <= status_code r <= 299)%Z
    /\ resp_body r = BodyJson (JObj fields)
    /\ dict_get fields "credentials" (JObj []) = JObj creds
    /\ dict_get fields "connection_config" (JObj []) = JObj config
    /\ c = SlackClient_init (dict_get creds "access_token" JNull)
             (dict_get config "team.id" JNull).
Proof.
  rewrite connect_spec. cbn [fst]. unfold fetched. split.
  - destruct (world (requests t) (credential_request env)) as [msg|r]; [discriminate|].
    destruct (Z.leb_spec 200 (status_code r)), (Z.leb_spec (status_code r) 299);
      cbn [andb and_then]; try discriminate.
    destruct (resp_body r) as [credentials|msg] eqn:Hb; [|discriminate].
    cbn [and_then]. unfold client_of.
    destruct credentials as [| | | |items|fields]; try discriminate.
    cbn [py_get and_then].
    destruct (dict_get fields "credentials" (JObj [])) as [| | | |items|creds] eqn:Hc;
      try discriminate.
    cbn [py_get and_then].
    destruct (dict_get fields "connection_config" (JObj [])) as [| | | |items|config] eqn:Hg;
      try discriminate.
    cbn [py_get and_then]. intros Heq. injection Heq as <-.
    exists r, fields, creds, config. repeat split; try lia; auto.
  - intros (r & fields & creds & config & -> & S & -> & Hc & Hg & ->).
    destruct (Z.leb_spec 200 (status_code r)); [|lia].
    destruct (Z.leb_spec (status_code r) 299); [|lia].
    cbn [andb and_then]. unfold client_of. cbn [py_get and_then].
    rewrite Hc. cbn [py_get and_then]. rewrite Hg. reflexivity.
Qed.

(** When the fetch, or the reading of its result, raises, [call_tool]
    raises the same exception: the handler is not reached, nothing is
    written about the error and no request goes to the Slack API. *)
Theorem call_tool_propagates_connect_failure (world : World) (env : Env) (name : string)
    (arguments : dict) (t : trace) (e : exn) :
  fst (connect world env t) = Raise e ->
  call_tool world env name arguments t
  = (Raise e, t ++ [Stderr ("Received CallToolRequest: " ++ name)%string;
                    Http (credential_request env)])
  /\ requests (snd (call_tool world env name arguments t))
     = requests t ++ [credential_request env].
Proof.
  intros C. rewrite (call_tool_not_connected _ _ _ _ _ _ C).
  split; [reflexivity|]. cbn [snd]. apply requests_connected.
Qed.

(** A broker that answers 200 with a JSON list instead of an object. *)
Lemma call_tool_propagates_connect_failure_witness :
  let world := network (ok_response (JArr [])) (ok_response (JObj [("ok", JBool true)])) in
  let e := Exn AttributeError "'list' object has no attribute 'get'" in
  call_tool world sample_env "slack_get_users" [] []
  = (Raise e, [Stderr "Received CallToolRequest: slack_get_users";
               Http (credential_request sample_env)])
  /\ requests (snd (call_tool world sample_env "slack_get_users" [] []))
     = [credential_request sample_env].
Proof.
  intros world e.
  exact (call_tool_propagates_connect_failure world sample_env "slack_get_users" [] [] e
           eq_refl).
Defined.

(** When the request to the Slack API fails in transport, or its body
    does not decode, [call_tool] returns the error envelope with the
    text of that exception and writes the same text on the diagnostic
    stream; this holds for every tool. *)
Theorem remote_failure_becomes_envelope (world : World) (env : Env) (name : string)
    (arguments : dict) (t : trace) (c : SlackClient) (req : request) (e : exn) :
  fst (connect world env t) = Return c ->
  requests (snd (call_tool world env name arguments t))
  = requests t ++ [credential_request env; req] ->
  decoded (world (requests (connected_trace env name t)) req) = Raise e ->
  call_tool world env name arguments t
  = (Return [MkTextContent "text" (json_dumps (JObj [("error", JStr (exn_msg e))]))],
     connected_trace env name t
       ++ [Http req; Stderr ("Error executing tool: " ++ exn_msg e)%string]).
Proof.
  intros C Hreq Hdec.
  rewrite (call_tool_connected _ _ _ _ _ _ C) in *. unfold try_except in *.
  destruct (dispatch_shape world c name arguments)
    as [[e' D] | (req' & post & _ & _ & _ & _ & D)]; rewrite D in *.
  - rewrite on_error_spec in Hreq. cbn [snd] in Hreq.
    rewrite requests_stderr, requests_connected in Hreq.
    apply app_inv_head in Hreq. discriminate Hreq.
  - assert (E : req' = req).
    { destruct (and_then _ post) as [items|e'] in Hreq;
        [|rewrite on_error_spec in Hreq]; cbn [snd] in Hreq;
        [|rewrite requests_stderr in Hreq];
        rewrite requests_http, requests_connected, <- app_assoc in Hreq;
        apply app_inv_head in Hreq; injection Hreq as ->; reflexivity. }
    subst req'. rewrite Hdec. cbn [and_then]. rewrite on_error_spec.
    rewrite <- app_assoc. reflexivity.
Qed.

(** [slack_add_reaction] when the Slack API cannot be reached. *)
Lemma remote_failure_becomes_envelope_witness :
  let world := network (ok_response (granted "xoxb-1" "T1"))
                 (Unreachable "All connection attempts failed") in
  let c := SlackClient_init (JStr "xoxb-1") (JStr "T1") in
  let arguments := [("channel_id", JStr "C1"); ("timestamp", JStr "1.1");
                    ("reaction", JStr "eyes")]%string in
  call_tool world sample_env "slack_add_reaction" arguments []
  = (Return [MkTextContent "text"
               ("{" ++ dq ++ "error" ++ dq ++ ": " ++ dq
                ++ "All connection attempts failed" ++ dq ++ "}")%string],
     connected_trace sample_env "slack_add_reaction" []
       ++ [Http (slack_write c "reactions.add"
                   (JObj [("channel", JStr "C1"); ("timestamp", JStr "1.1");
                          ("name", JStr "eyes")]));
           Stderr "Error executing tool: All connection attempts failed"]).
Proof.
  intros world c arguments.
  exact (remote_failure_becomes_envelope world sample_env "slack_add_reaction" arguments []
           c (slack_write c "reactions.add"
                (JObj [("channel", JStr "C1"); ("timestamp", JStr "1.1");
                       ("name", JStr "eyes")]))
           (Exn TransportError "All connection attempts failed")
           eq_refl eq_refl eq_refl).
Defined.

(** ** Validation against the registry *)

Ltac use_required H :=
  repeat match goal with
         | |- context [truthy (dict_get ?a ?k JNull)] =>
             rewrite (H k) by (simpl; tauto)
         end.

Ltac after_request :=
  unfold bind; cbv zeta;
  repeat match goal with
         | |- context [get_conversation_info ?w ?c ?x ?t] =>
             rewrite (get_conversation_info_spec w c x t); cbv zeta
         | |- context [post_message ?w ?c ?x ?y ?t] =>
             rewrite (post_message_spec w c x y t); cbv zeta
         | |- context [post_reply ?w ?c ?x ?y ?z ?t] =>
             rewrite (post_reply_spec w c x y z t); cbv zeta
         | |- context [add_reaction ?w ?c ?x ?y ?z ?t] =>
             rewrite (add_reaction_spec w c x y z t); cbv zeta
         | |- context [get_channel_history ?w ?c ?x ?y ?t] =>
             rewrite (get_channel_history_spec w c x y t); cbv zeta
         | |- context [get_thread_replies ?w ?c ?x ?y ?t] =>
             rewrite (get_thread_replies_spec w c x y t); cbv zeta
         | |- context [get_user_profile ?w ?c ?x ?t] =>
             rewrite (get_user_profile_spec w c x t); cbv zeta
         end.

(** For a tool with required arguments, once the statements before
    the [try] block have built the client: when every argument its
    schema lists as required is present and non-empty, the validation
    passes and the request to the Slack API is made.  Together with
    the rejection of a missing argument, the dispatcher checks exactly
    the required list of the registry. *)
Theorem required_arguments_suffice (world : World) (env : Env) (tool : Tool)
    (arguments : dict) (t : trace) (c : SlackClient) :
  In tool TOOLS ->
  required_args tool <> [] ->
  (forall r, In r (required_args tool) -> truthy (dict_get arguments r JNull) = true) ->
  fst (connect world env t) = Return c ->
  exists req,
    is_slack_url (req_url req) = true
    /\ requests (snd (call_tool world env (name tool) arguments t))
       = requests t ++ [credential_request env; req].
Proof.
  intros Htool Hreq Hall C.
  rewrite (call_tool_connected _ _ _ _ _ _ C). unfold try_except.
  simpl in Htool.
  repeat (destruct Htool as [<- | Htool];
          [try (exfalso; apply Hreq; reflexivity); simpl in Hall |]);
    try contradiction;
    unfold dispatch; simpl; use_required Hall; cbn [negb orb]; after_request;
    eexists; (split; [|
      repeat match goal with
             | |- context [decoded ?o] => destruct (decoded o); cbn [and_then]
             | |- context [select_channel ?d] => destruct (select_channel d); cbn [and_then]
             | |- context [truthy ?v] => destruct (truthy v)
             end;
      unfold ret; rewrite ?on_error_spec; cbn [snd]; rewrite ?requests_stderr;
      rewrite requests_http, requests_connected, <- app_assoc; reflexivity]);
    reflexivity.
Qed.

(** [slack_get_thread_replies] with both of its required arguments. *)
Lemma required_arguments_suffice_witness :
  let world := network (ok_response (granted "xoxb-1" "T1"))
                 (ok_response (JObj [("ok", JBool true)])) in
  let arguments := [("channel_id", JStr "C1"); ("thread_ts", JStr "1.1")]%string in
  exists req,
    is_slack_url (req_url req) = true
    /\ requests (snd (call_tool world sample_env "slack_get_thread_replies" arguments []))
       = [credential_request sample_env; req].
Proof.
  intros world arguments.
  refine (required_arguments_suffice world sample_env
            (nth 5 TOOLS (MkTool EmptyString EmptyString JNull)) arguments []
            (SlackClient_init (JStr "xoxb-1") (JStr "T1")) _ _ _ eq_refl).
  - simpl. tauto.
  - discriminate.
  - intros r [<- | [<- | []]]; reflexivity.
Defined.

(** [call_tool] with two handlers that agree on every client. *)
Lemma call_tool_congruence (world : World) (env : Env) (name : string)
    (arguments arguments' : dict) :
  (forall c, dispatch world c name arguments = dispatch world c name arguments') ->
  forall t, call_tool world env name arguments t = call_tool world env name arguments' t.
Proof.
  intros H t. unfold call_tool, bind.
  destruct (print_stderr _ t) as [[u|e] t1]; [|reflexivity].
  destruct (connect world env t1) as [[c|e] t2]; [|reflexivity].
  rewrite (H c). reflexivity.
Qed.

Ltac same_lookups H :=
  unfold dispatch; simpl; unfold dict_get;
  repeat match goal with
         | |- context [lookup ?k ?a] =>
             lazymatch type of H with
             | forall k', _ -> lookup k' a = _ => rewrite (H k) by (simpl; tauto)
             end
         end;
  reflexivity.

(** The dispatcher reads no argument but those the schema of the tool
    declares: two argument mappings that agree on the declared
    parameters get the same answer and cause the same requests.
    Undeclared arguments are ignored without an error. *)
Theorem undeclared_arguments_are_ignored (world : World) (env : Env) (tool : Tool)
    (arguments arguments' : dict) (t : trace) :
  In tool TOOLS ->
  (forall k, In k (schema_properties tool) -> lookup k arguments = lookup k arguments') ->
  call_tool world env (name tool) arguments t
  = call_tool world env (name tool) arguments' t.
Proof.
  intros Htool H. apply call_tool_congruence. intros c.
  simpl in Htool.
  repeat (destruct Htool as [<- | Htool]; [simpl in H; same_lookups H |]).
  contradiction.
Qed.

(** [slack_get_user_profile] with an argument its schema does not
    declare. *)
Lemma undeclared_arguments_are_ignored_witness :
  let world := network (ok_response (granted "xoxb-1" "T1"))
                 (ok_response (JObj [("ok", JBool true)])) in
  call_tool world sample_env "slack_get_user_profile"
    [("user_id", JStr "U1"); ("verbose", JBool true)]%string []
  = call_tool world sample_env "slack_get_user_profile" [("user_id", JStr "U1")]%string [].
Proof.
  intros world.
  refine (undeclared_arguments_are_ignored world sample_env
            (nth 7 TOOLS (MkTool EmptyString EmptyString JNull))
            [("user_id", JStr "U1"); ("verbose", JBool true)]%string
            [("user_id", JStr "U1")]%string [] _ _).
  - simpl. tauto.
  - intros k [<- | []]. reflexivity.
Defined.

Lemma lookup_in (key : string) (d : dict) (v : json) :
  lookup key d = Some v -> In (key, v) d.
Proof.
  induction d as [|[k x] d IH]; simpl; [discriminate|].
  destruct (String.eqb_spec k key) as [->|]; intros H.
  - injection H as <-. left. reflexivity.
  - right. exact (IH H).
Qed.

Lemma schema_default_in (tool : Tool) (arg : string) (default : json) :
  schema_default tool arg = Some default ->
  exists fields props spec,
    inputSchema tool = JObj fields
    /\ lookup "properties" fields = Some (JObj props)
    /\ In (arg, JObj spec) props
    /\ lookup "default" spec = Some default.
Proof.
  unfold schema_default.
  destruct (inputSchema tool) as [| | | |items|fields] eqn:S; try discriminate.
  destruct (lookup "properties" fields) as [[| | | |items|props]|] eqn:P;
    try discriminate.
  destruct (lookup arg props) as [[| | | |items|spec]|] eqn:L; try discriminate.
  intros H. exists fields, props, spec. repeat split; auto using lookup_in.
Qed.

Ltac the_declared_default Hd :=
  let fields := fresh "fields" in
  let props := fresh "props" in
  let spec := fresh "spec" in
  let Hs := fresh "Hs" in
  let Hp := fresh "Hp" in
  let Hin := fresh "Hin" in
  let Hdef := fresh "Hdef" in
  destruct (schema_default_in _ _ _ Hd) as (fields & props & spec & Hs & Hp & Hin & Hdef);
  cbn [inputSchema] in Hs; injection Hs as <-;
  vm_compute in Hp; injection Hp as <-;
  simpl in Hin;
  repeat (destruct Hin as [Hin | Hin];
          [injection Hin as <- <-; vm_compute in Hdef;
           try discriminate Hdef; injection Hdef as <- |]);
  try contradiction.

(** The default a schema declares for a parameter is the default the
    dispatcher applies: leaving the parameter out is the same as
    passing the declared default (100 for the two listings, 10 for the
    channel history). *)
Theorem declared_defaults_are_applied (world : World) (env : Env) (tool : Tool)
    (arg : string) (default : json) (arguments : dict) (t : trace) :
  In tool TOOLS ->
  schema_default tool arg = Some default ->
  lookup arg arguments = None ->
  call_tool world env (name tool) arguments t
  = call_tool world env (name tool) ((arg, default) :: arguments) t.
Proof.
  intros Htool Hd Hnone. apply call_tool_congruence. intros c.
  simpl in Htool.
  repeat (destruct Htool as [<- | Htool];
          [the_declared_default Hd;
           unfold dispatch; simpl; unfold dict_get; simpl; rewrite Hnone; reflexivity |]).
  contradiction.
Qed.

(** [slack_get_channel_history] without a limit. *)
Lemma declared_defaults_are_applied_witness :
  let world := network (ok_response (granted "xoxb-1" "T1"))
                 (ok_response (JObj [("ok", JBool true)])) in
  call_tool world sample_env "slack_get_channel_history" [("channel_id", JStr "C1")]%string []
  = call_tool world sample_env "slack_get_channel_history"
      [("limit", JInt 10); ("channel_id", JStr "C1")]%string [].
Proof.
  intros world.
  refine (declared_defaults_are_applied world sample_env
            (nth 4 TOOLS (MkTool EmptyString EmptyString JNull)) "limit" (JInt 10)
            [("channel_id", JStr "C1")]%string [] _ eq_refl eq_refl).
  simpl. tauto.
Defined.

(** ** Limits and cursors *)

(** The limit of [slack_get_channel_history] is forwarded as it is:
    unlike the two listings, no upper bound is applied to it. *)
Theorem history_limit_is_not_clamped (world : World) (env : Env) (arguments : dict)
    (t : trace) (c : SlackClient) (n : Z) :
  let channel_id := dict_get arguments "channel_id" JNull in
  fst (connect world env t) = Return c ->
  truthy channel_id = true ->
  lookup "limit" arguments = Some (JInt n) ->
  requests (snd (call_tool world env "slack_get_channel_history" arguments t))
  = requests t ++ [credential_request env;
                   slack_read c "conversations.history"
                     [("channel", channel_id); ("limit", JStr (str_int n))]].
Proof.
  intros channel_id C Hid Hlimit.
  rewrite (call_tool_connected _ _ _ _ _ _ C). unfold try_except.
  unfold dispatch. simpl. fold channel_id. rewrite Hid. cbn [negb].
  replace (dict_get arguments "limit" (JInt 10)) with (JInt n)
    by (unfold dict_get; rewrite Hlimit; reflexivity).
  after_request. cbn [py_str py_repr]. requests_of_call.
Qed.

(** A limit of 1000 for the channel history. *)
Lemma history_limit_is_not_clamped_witness :
  let world := network (ok_response (granted "xoxb-1" "T1"))
                 (ok_response (JObj [("ok", JBool true)])) in
  map req_url
    (requests (snd (call_tool world sample_env "slack_get_channel_history"
                      [("channel_id", JStr "C1"); ("limit", JInt 1000)]%string [])))
  = ["https://api.nango.dev/connection/conn-1";
     "https://slack.com/api/conversations.history?channel=C1&limit=1000"]%string.
Proof.
  intros world.
  exact (f_equal (map req_url)
           (history_limit_is_not_clamped world sample_env
              [("channel_id", JStr "C1"); ("limit", JInt 1000)]%string []
              (SlackClient_init (JStr "xoxb-1") (JStr "T1")) 1000
              eq_refl eq_refl eq_refl)).
Defined.

(** For the two listings with a limit that [min] accepts: a non-empty
    cursor is forwarded as the parameter [cursor], unchanged; an absent
    or empty cursor is left out of the request. *)
Theorem cursor_is_forwarded_when_present (world : World) (env : Env)
    (tool endpoint : string) (arguments : dict) (t : trace) (c : SlackClient) :
  let cursor := dict_get arguments "cursor" JNull in
  In (tool, endpoint) [("slack_list_channels", "conversations.list");
                       ("slack_get_users", "users.list")]%string ->
  numeric (dict_get arguments "limit" (JInt 100)) = true ->
  fst (connect world env t) = Return c ->
  exists params,
    lookup "cursor" params = (if truthy cursor then Some cursor else None)
    /\ requests (snd (call_tool world env tool arguments t))
       = requests t ++ [credential_request env; slack_read c endpoint params].
Proof.
  intros cursor Htool Hnum C.
  rewrite (call_tool_connected _ _ _ _ _ _ C). unfold try_except.
  assert (Hmin : exists m, py_min (dict_get arguments "limit" (JInt 100)) 200 = Return m).
  { destruct (dict_get arguments "limit" (JInt 100)); try discriminate Hnum;
      eexists; reflexivity. }
  destruct Hmin as [m Hmin].
  destruct Htool as [E | [E | []]]; injection E as <- <-;
    [rewrite dispatch_list_channels | rewrite dispatch_get_users]; fold cursor.
  - exists (if truthy cursor
            then dict_set [("types", JStr "public_channel");
                           ("exclude_archived", JStr "true");
                           ("limit", JStr (py_str m)); ("team_id", team_id c)]
                   "cursor" cursor
            else [("types", JStr "public_channel"); ("exclude_archived", JStr "true");
                  ("limit", JStr (py_str m)); ("team_id", team_id c)]).
    split; [destruct (truthy cursor); reflexivity|].
    unfold bind at 1. rewrite get_channels_spec. unfold get_channels_params.
    rewrite Hmin. cbv zeta. requests_of_call.
  - exists (if truthy cursor
            then dict_set [("limit", JStr (py_str m)); ("team_id", team_id c)]
                   "cursor" cursor
            else [("limit", JStr (py_str m)); ("team_id", team_id c)]).
    split; [destruct (truthy cursor); reflexivity|].
    unfold bind at 1. rewrite get_users_spec. unfold get_users_params.
    rewrite Hmin. cbv zeta. requests_of_call.
Qed.

(** [slack_get_users] with a cursor, and the URL it requests. *)
Lemma cursor_is_forwarded_when_present_witness :
  let world := network (ok_response (granted "xoxb-1" "T1"))
                 (ok_response (JObj [("ok", JBool true)])) in
  let arguments := [("cursor", JStr "dXNlcjpVMDYx")]%string in
  exists params,
    lookup "cursor" params = Some (JStr "dXNlcjpVMDYx")
    /\ requests (snd (call_tool world sample_env "slack_get_users" arguments []))
       = [credential_request sample_env;
          slack_read (SlackClient_init (JStr "xoxb-1") (JStr "T1")) "users.list" params].
Proof.
  intros world arguments.
  exact (cursor_is_forwarded_when_present world sample_env "slack_get_users" "users.list"
           arguments [] (SlackClient_init (JStr "xoxb-1") (JStr "T1"))
           (or_intror (or_introl eq_refl)) eq_refl eq_refl).
Defined.

(** For the two listings, a supplied limit that is a string, [null]
    passed explicitly, a list or an object makes [min(limit, 200)]
    raise before any request: no request goes to the Slack API,
    whatever the broker answers, and once the statements before the
    [try] block have built the client the result is the error envelope
    carrying the text of the type error. *)
Theorem non_numeric_limit_is_rejected (world : World) (env : Env) (tool : string)
    (arguments : dict) (t : trace) (limit : json) :
  In tool ["slack_list_channels"; "slack_get_users"]%string ->
  lookup "limit" arguments = Some limit ->
  In (type_name limit) ["NoneType"; "str"; "list"; "dict"]%string ->
  let message := ("'<' not supported between instances of 'int' and '"
                  ++ type_name limit ++ "'")%string in
  requests (snd (call_tool world env tool arguments t))
  = requests t ++ [credential_request env]
  /\ forall c, fst (connect world env t) = Return c ->
       call_tool world env tool arguments t
       = (Return (error_envelope message),
          connected_trace env tool t
            ++ [Stderr ("Error executing tool: " ++ message)%string]).
Proof.
  intros Htool Hlimit Htype message.
  assert (Hmin : py_min (dict_get arguments "limit" (JInt 100)) 200
                 = Raise (Exn TypeError message)).
  { unfold dict_get. rewrite Hlimit.
    destruct limit; try reflexivity; simpl in Htype; exfalso;
      intuition discriminate. }
  assert (E : forall c, fst (connect world env t) = Return c ->
                call_tool world env tool arguments t
                = (Return (error_envelope message),
                   connected_trace env tool t
                     ++ [Stderr ("Error executing tool: " ++ message)%string])).
  { intros c C. rewrite (call_tool_connected _ _ _ _ _ _ C). unfold try_except.
    destruct Htool as [<- | [<- | []]];
      [rewrite dispatch_list_channels; unfold bind at 1;
       rewrite get_channels_spec; unfold get_channels_params
      |rewrite dispatch_get_users; unfold bind at 1;
       rewrite get_users_spec; unfold get_users_params];
      rewrite Hmin; reflexivity. }
  split; [|exact E].
  destruct (fst (connect world env t)) as [c|e] eqn:C.
  - rewrite (E c eq_refl). cbn [snd]. rewrite requests_stderr. apply requests_connected.
  - rewrite (call_tool_not_connected _ _ _ _ _ _ C). cbn [snd]. apply requests_connected.
Qed.

(** [slack_list_channels] with the limit given as a string. *)
Lemma non_numeric_limit_is_rejected_witness :
  let world := network (ok_response (granted "xoxb-1" "T1"))
                 (ok_response (JObj [("ok", JBool true)])) in
  let arguments := [("limit", JStr "50")]%string in
  let message := "'<' not supported between instances of 'int' and 'str'"%string in
  requests (snd (call_tool world sample_env "slack_list_channels" arguments []))
  = [credential_request sample_env]
  /\ call_tool world sample_env "slack_list_channels" arguments []
     = (Return (error_envelope message),
        connected_trace sample_env "slack_list_channels" []
          ++ [Stderr ("Error executing tool: " ++ message)%string]).
Proof.
  intros world arguments message.
  pose proof (non_numeric_limit_is_rejected world sample_env "slack_list_channels"
                arguments [] (JStr "50") (or_introl eq_refl) eq_refl
                (or_intror (or_introl eq_refl))) as H.
  split.
  - exact (proj1 H).
  - exact (proj2 H (SlackClient_init (JStr "xoxb-1") (JStr "T1")) eq_refl).
Defined.

(** ** Malformed answers to the channel lookup *)

(** When the Slack API answers the channel lookup with JSON that is
    not an object, or with an ok object whose non-empty ["channel"]
    member is not an object, the [.get] on it raises inside the [try]
    block: the result is the error envelope naming the type of the
    offending value, after the one request. *)
Theorem conversation_info_malformed_response (world : World) (env : Env)
    (arguments : dict) (t : trace) (c : SlackClient) (r : response)
    (data culprit : json) :
  let channel_id := dict_get arguments "channel_id" JNull in
  let t1 := connected_trace env "get_conversation_info" t in
  let req := slack_read c "conversations.info" [("channel", channel_id)] in
  let message := ("'" ++ type_name culprit ++ "' object has no attribute 'get'")%string in
  fst (connect world env t) = Return c ->
  truthy channel_id = true ->
  world (requests t1) req = Responded r ->
  resp_body r = BodyJson data ->
  is_object culprit = false ->
  culprit = data
  \/ (exists fields,
        data = JObj fields
        /\ truthy (dict_get fields "ok" JNull) = true
        /\ dict_get fields "channel" JNull = culprit
        /\ truthy culprit = true) ->
  call_tool world env "get_conversation_info" arguments t
  = (Return (error_envelope message),
     t1 ++ [Http req; Stderr ("Error executing tool: " ++ message)%string]).
Proof.
  intros channel_id t1 req message C Hid Hworld Hbody Hobj Hshape.
  assert (S : select_channel data = Raise (Exn AttributeError message)).
  { unfold select_channel.
    destruct Hshape as [<- | (fields & -> & Hok & Hch & Htruthy)].
    - destruct culprit; try discriminate Hobj; reflexivity.
    - cbn [py_get]. rewrite Hok, Hch, Htruthy.
      destruct culprit; try discriminate Hobj; reflexivity. }
  rewrite (call_tool_connected _ _ _ _ _ _ C). unfold try_except.
  rewrite dispatch_conversation_info. cbv zeta. fold channel_id. rewrite Hid.
  cbn [negb]. unfold bind. rewrite get_conversation_info_spec. cbv zeta.
  fold req t1. rewrite Hworld. unfold decoded. rewrite Hbody. cbn [and_then].
  rewrite S, on_error_spec, <- app_assoc. reflexivity.
Qed.

(** The Slack API answers with a JSON list. *)
Lemma conversation_info_malformed_response_witness :
  let world := network (ok_response (granted "xoxb-1" "T1")) (ok_response (JArr [])) in
  let c := SlackClient_init (JStr "xoxb-1") (JStr "T1") in
  let message := "'list' object has no attribute 'get'"%string in
  call_tool world sample_env "get_conversation_info" [("channel_id", JStr "C1")]%string []
  = (Return (error_envelope message),
     connected_trace sample_env "get_conversation_info" []
       ++ [Http (slack_read c "conversations.info" [("channel", JStr "C1")]);
           Stderr ("Error executing tool: " ++ message)%string]).
Proof.
  intros world c message.
  exact (conversation_info_malformed_response world sample_env
           [("channel_id", JStr "C1")]%string [] c
           (Response 200 "OK" (BodyJson (JArr []))) (JArr []) (JArr [])
           eq_refl eq_refl eq_refl eq_refl eq_refl (or_introl eq_refl)).
Defined.

(** ** The exceptions of the [try] block *)

Lemma py_min_raises (limit : json) (bound : Z) (e : exn) :
  py_min limit bound = Raise e -> exn_cls e = TypeError.
Proof. destruct limit; simpl; intros H; try discriminate H; injection H as <-; reflexivity. Qed.

Lemma decoded_raises (o : outcome) (e : exn) :
  decoded o = Raise e -> exn_cls e = TransportError \/ exn_cls e = JSONDecodeError.
Proof.
  unfold decoded. destruct o as [msg|r].
  - intros H. injection H as <-. left. reflexivity.
  - destruct (resp_body r); intros H; [discriminate H|].
    injection H as <-. right. reflexivity.
Qed.

Lemma py_get_raises (obj : json) (key : string) (default : json) (e : exn) :
  py_get obj key default = Raise e -> exn_cls e = AttributeError.
Proof. destruct obj; simpl; intros H; try discriminate H; injection H as <-; reflexivity. Qed.

Lemma select_channel_raises (data : json) (e : exn) :
  select_channel data = Raise e -> exn_cls e = AttributeError.
Proof.
  unfold select_channel.
  destruct (py_get data "ok" JNull) as [ok|e1] eqn:H1;
    [|intros H; injection H as <-; exact (py_get_raises _ _ _ _ H1)].
  destruct (truthy ok); [|discriminate].
  destruct (py_get data "channel" JNull) as [channel|e2] eqn:H2;
    [|intros H; injection H as <-; exact (py_get_raises _ _ _ _ H2)].
  destruct (truthy channel); [|discriminate].
  destruct (py_get channel "is_archived" JNull) as [a|e3] eqn:H3;
    [|intros H; injection H as <-; exact (py_get_raises _ _ _ _ H3)].
  destruct (truthy a); discriminate.
Qed.

Ltac reject_early :=
  left; eexists; split; [|intros t; reflexivity]; left; reflexivity.

Ltac call_late req spec :=
  right; exists req; exists (fun j => Return (text_content j));
  split; [reflexivity|]; split; [intros j e' H'; discriminate H'|];
  finish_call spec.

(** The [try] block either raises a [ValueError] or a [TypeError]
    before any request, or makes one Slack request and applies a final
    step that can only raise an [AttributeError]. *)
Lemma dispatch_outcomes (world : World) (c : SlackClient) (name : string)
    (arguments : dict) :
  (exists e, raised_before_request e
             /\ forall t, dispatch world c name arguments t = (Raise e, t))
  \/ (exists req post,
        is_slack_url (req_url req) = true
        /\ (forall j e, post j = Raise e -> exn_cls e = AttributeError)
        /\ forall t, dispatch world c name arguments t
                     = (and_then (decoded (world (requests t) req)) post,
                        t ++ [Http req])).
Proof.
  unfold dispatch. by_name.
  - destruct (get_channels_params c (dict_get arguments "limit" (JInt 100))
                (dict_get arguments "cursor" JNull)) as [params|err] eqn:P.
    + right. exists (slack_read c "conversations.list" params).
      exists (fun j => Return (text_content j)).
      split; [reflexivity|]. split; [intros j e' H'; discriminate H'|].
      intros t. unfold bind. rewrite get_channels_spec, P. cbv zeta.
      destruct (decoded _); reflexivity.
    + left. exists err. split.
      * right. unfold get_channels_params in P.
        destruct (py_min _ 200) as [m|e'] eqn:Hm; [discriminate P|].
        injection P as <-. exact (py_min_raises _ _ _ Hm).
      * intros t. unfold bind. rewrite get_channels_spec, P. reflexivity.
  - destruct (truthy (dict_get arguments "channel_id" JNull)); cbn [negb];
      [|reject_early].
    right.
    exists (slack_read c "conversations.info"
              [("channel", dict_get arguments "channel_id" JNull)]).
    exists (fun j => and_then (select_channel j)
                       (fun response =>
                          if truthy response then Return (text_content response)
                          else Return (error_envelope "Channel not found or is archived"))).
    split; [reflexivity|]. split.
    { intros j e'. destruct (select_channel j) as [response|err] eqn:S; cbn [and_then].
      - destruct (truthy response); discriminate.
      - intros H'. injection H' as <-. exact (select_channel_raises _ _ S). }
    intros t. unfold bind. rewrite get_conversation_info_spec. cbv zeta.
    destruct (decoded _) as [data|err]; [|reflexivity].
    cbn [and_then]. destruct (select_channel data) as [response|err]; [|reflexivity].
    cbn [and_then]. destruct (truthy response); reflexivity.
  - destruct (truthy (dict_get arguments "channel_id" JNull)),
             (truthy (dict_get arguments "text" JNull)); cbn [negb orb];
      try reject_early.
    call_late (slack_write c "chat.postMessage"
                 (JObj [("channel", (dict_get arguments "channel_id" JNull));
                        ("text", (dict_get arguments "text" JNull))]))
              post_message_spec.
  - destruct (truthy (dict_get arguments "channel_id" JNull)),
             (truthy (dict_get arguments "thread_ts" JNull)),
             (truthy (dict_get arguments "text" JNull)); cbn [negb orb];
      try reject_early.
    call_late (slack_write c "chat.postMessage"
                 (JObj [("channel", (dict_get arguments "channel_id" JNull));
                        ("thread_ts", (dict_get arguments "thread_ts" JNull));
                        ("text", (dict_get arguments "text" JNull))]))
              post_reply_spec.
  - destruct (truthy (dict_get arguments "channel_id" JNull)),
             (truthy (dict_get arguments "timestamp" JNull)),
             (truthy (dict_get arguments "reaction" JNull)); cbn [negb orb];
      try reject_early.
    call_late (slack_write c "reactions.add"
                 (JObj [("channel", (dict_get arguments "channel_id" JNull));
                        ("timestamp", (dict_get arguments "timestamp" JNull));
                        ("name", (dict_get arguments "reaction" JNull))]))
              add_reaction_spec.
  - destruct (truthy (dict_get arguments "channel_id" JNull)); cbn [negb];
      [|reject_early].
    call_late (slack_read c "conversations.history"
                 [("channel", (dict_get arguments "channel_id" JNull));
                  ("limit", JStr (py_str (dict_get arguments "limit" (JInt 10))))])
              get_channel_history_spec.
  - destruct (truthy (dict_get arguments "channel_id" JNull)),
             (truthy (dict_get arguments "thread_ts" JNull)); cbn [negb orb];
      try reject_early.
    call_late (slack_read c "conversations.replies"
                 [("channel", (dict_get arguments "channel_id" JNull));
                  ("ts", (dict_get arguments "thread_ts" JNull))])
              get_thread_replies_spec.
  - destruct (get_users_params c (dict_get arguments "limit" (JInt 100))
                (dict_get arguments "cursor" JNull)) as [params|err] eqn:P.
    + right. exists (slack_read c "users.list" params).
      exists (fun j => Return (text_content j)).
      split; [reflexivity|]. split; [intros j e' H'; discriminate H'|].
      intros t. unfold bind. rewrite get_users_spec, P. cbv zeta.
      destruct (decoded _); reflexivity.
    + left. exists err. split.
      * right. unfold get_users_params in P.
        destruct (py_min _ 200) as [m|e'] eqn:Hm; [discriminate P|].
        injection P as <-. exact (py_min_raises _ _ _ Hm).
      * intros t. unfold bind. rewrite get_users_spec, P. reflexivity.
  - destruct (truthy (dict_get arguments "user_id" JNull)); cbn [negb];
      [|reject_early].
    call_late (slack_read c "users.profile.get"
                 [("user", (dict_get arguments "user_id" JNull));
                  ("include_labels", JStr "true")])
              get_user_profile_spec.
  - reject_early.
Qed.

(** Whatever the [try] block of [call_tool] raises was raised either
    before any request went out, and is then a [ValueError] (unknown
    tool, missing argument) or a [TypeError] (limit), or after exactly
    one request to the Slack API, and is then a transport error, a
    decoding error or an [AttributeError]: a rejected call never costs
    a remote request, and a failed remote call is never repeated. *)
Theorem try_block_error_taxonomy (world : World) (c : SlackClient) (name : string)
    (arguments : dict) (t : trace) (e : exn) :
  fst (dispatch world c name arguments t) = Raise e ->
  (raised_before_request e /\ snd (dispatch world c name arguments t) = t)
  \/ (raised_after_request e
      /\ exists req,
           is_slack_url (req_url req) = true
           /\ snd (dispatch world c name arguments t) = t ++ [Http req]).
Proof.
  destruct (dispatch_outcomes world c name arguments)
    as [(e' & B & D) | (req & post & U & A & D)]; rewrite D; cbn [fst snd].
  - intros H. injection H as <-. left. auto.
  - intros H. right. split; [|exists req; auto].
    destruct (decoded _) as [j|e'] eqn:Hd; cbn [and_then] in H.
    + right. right. exact (A _ _ H).
    + injection H as <-. destruct (decoded_raises _ _ Hd); [left | right; left]; assumption.
Qed.

(** [slack_post_message] without its text: the [ValueError] is raised
    with the trace untouched. *)
Lemma try_block_error_taxonomy_witness :
  let world := network (ok_response (granted "xoxb-1" "T1"))
                 (ok_response (JObj [("ok", JBool true)])) in
  let c := SlackClient_init (JStr "xoxb-1") (JStr "T1") in
  let e := Exn ValueError "Missing required arguments: channel_id and text" in
  let run := dispatch world c "slack_post_message" [("channel_id", JStr "C1")]%string [] in
  (raised_before_request e /\ snd run = [])
  \/ (raised_after_request e
      /\ exists req, is_slack_url (req_url req) = true /\ snd run = [] ++ [Http req]).
Proof.
  intros world c e run.
  exact (try_block_error_taxonomy world c "slack_post_message"
           [("channel_id", JStr "C1")]%string [] e eq_refl).
Defined.

(** ** Query strings *)

Lemma count_char_app (c : ascii) (s1 s2 : string) :
  count_char c (s1 ++ s2)%string = (count_char c s1 + count_char c s2)%nat.
Proof. induction s1 as [|c' s1 IH]; simpl; [reflexivity|]. rewrite IH. lia. Qed.

Lemma quote_plus_char_clean (c : ascii) :
  count_char "&" (quote_plus_char c) = 0%nat
  /\ count_char "=" (quote_plus_char c) = 0%nat
  /\ count_char "?" (quote_plus_char c) = 0%nat
  /\ count_char "#" (quote_plus_char c) = 0%nat.
Proof. destruct c as [[] [] [] [] [] [] [] []]; vm_compute; auto. Qed.

Lemma quote_plus_clean (s : string) :
  count_char "&" (quote_plus s) = 0%nat
  /\ count_char "=" (quote_plus s) = 0%nat
  /\ count_char "?" (quote_plus s) = 0%nat
  /\ count_char "#" (quote_plus s) = 0%nat.
Proof.
  unfold quote_plus. induction s as [|c s (I1 & I2 & I3 & I4)]; simpl; [auto|].
  destruct (quote_plus_char_clean c) as (C1 & C2 & C3 & C4).
  rewrite !count_char_app, C1, C2, C3, C4, I1, I2, I3, I4. auto.
Qed.

Lemma urlencode_counts (params : dict) :
  count_char "&" (urlencode params) = pred (List.length params)
  /\ count_char "=" (urlencode params) = List.length params
  /\ count_char "?" (urlencode params) = 0%nat
  /\ count_char "#" (urlencode params) = 0%nat.
Proof.
  induction params as [|[k v] rest (I1 & I2 & I3 & I4)]; [simpl; auto|].
  destruct (quote_plus_clean k) as (K1 & K2 & K3 & K4).
  destruct (quote_plus_clean (py_str v)) as (V1 & V2 & V3 & V4).
  destruct rest as [|p rest].
  - cbn [urlencode List.length pred].
    rewrite !count_char_app, K1, K2, K3, K4, V1, V2, V3, V4. simpl. auto.
  - change (urlencode ((k, v) :: p :: rest))
      with (quote_plus k ++ "=" ++ quote_plus (py_str v) ++ "&" ++ urlencode (p :: rest))%string.
    rewrite !count_char_app, K1, K2, K3, K4, V1, V2, V3, V4, I1, I2, I3, I4.
    simpl. auto.
Qed.

(** The URL of a read holds one question mark, one [=] per parameter
    and one [&] between two parameters, and no fragment mark, whatever
    the argument values are: a channel id, a cursor or a team id
    cannot add, drop or split parameters of the request. *)
Theorem query_string_is_not_injectable (self : SlackClient) (endpoint : string)
    (params : dict) :
  In endpoint read_endpoints ->
  let url := req_url (slack_read self endpoint params) in
  count_char "?" url = 1%nat
  /\ count_char "=" url = List.length params
  /\ count_char "&" url = pred (List.length params)
  /\ count_char "#" url = 0%nat.
Proof.
  intros Hin url. unfold url, slack_read. cbn [req_url].
  destruct (urlencode_counts params) as (U1 & U2 & U3 & U4).
  unfold read_endpoints in Hin. simpl in Hin.
  repeat (destruct Hin as [<- | Hin];
          [rewrite !count_char_app, U1, U2, U3, U4; simpl; auto |]).
  contradiction.
Qed.

(** A channel id that tries to add a parameter. *)
Lemma query_string_is_not_injectable_witness :
  let self := SlackClient_init (JStr "xoxb-1") (JStr "T1") in
  let params := [("channel", JStr "C1&limit=1000#x?y"); ("limit", JStr "10")]%string in
  let url := req_url (slack_read self "conversations.history" params) in
  count_char "?" url = 1%nat
  /\ count_char "=" url = 2%nat
  /\ count_char "&" url = 1%nat
  /\ count_char "#" url = 0%nat.
Proof.
  intros self params.
  refine (query_string_is_not_injectable self "conversations.history" params _).
  unfold read_endpoints. simpl. tauto.
Defined.

(** ** The text of a result *)

Lemma all_printable_app (s1 s2 : string) :
  all_printable (s1 ++ s2)%string = all_printable s1 && all_printable s2.
Proof.
  induction s1 as [|c s1 IH]; simpl; [reflexivity|].
  rewrite IH. apply andb_assoc.
Qed.

Lemma json_escape_char_printable (c : ascii) : all_printable (json_escape_char c) = true.
Proof. destruct c as [[] [] [] [] [] [] [] []]; vm_compute; reflexivity. Qed.

Lemma json_quote_printable (s : string) : all_printable (json_quote s) = true.
Proof.
  unfold json_quote. rewrite !all_printable_app.
  assert (E : all_printable (flat_map_string json_escape_char s) = true).
  { induction s as [|c s IH]; simpl; [reflexivity|].
    rewrite all_printable_app, json_escape_char_printable, IH. reflexivity. }
  rewrite E. reflexivity.
Qed.

Lemma string_of_uint_printable (d : Decimal.uint) :
  all_printable (NilEmpty.string_of_uint d) = true.
Proof. induction d; simpl; auto. Qed.

Lemma str_int_printable (n : Z) : all_printable (str_int n) = true.
Proof.
  unfold str_int, NilZero.string_of_int, NilZero.string_of_uint.
  destruct (Z.to_int n) as [d|d]; [|simpl];
    (destruct d; [reflexivity | apply (string_of_uint_printable (_ d)) ..]).
Qed.

Lemma json_dumps_printable : forall v : json, all_printable (json_dumps v) = true.
Proof.
  fix IH 1. intros [| [|] | n | s | items | fields]; try reflexivity.
  - apply str_int_printable.
  - apply json_quote_printable.
  - assert (G : all_printable
                  ((fix go (l : list json) : string :=
                      match l with
                      | [] => EmptyString
                      | [x] => json_dumps x
                      | x :: rest => (json_dumps x ++ ", " ++ go rest)%string
                      end) items) = true).
    { induction items as [|x rest IHr]; [reflexivity|].
      destruct rest as [|y rest]; [apply IH|].
      rewrite !all_printable_app, IH, IHr. reflexivity. }
    cbn [json_dumps]. rewrite !all_printable_app, G. reflexivity.
  - assert (G : all_printable
                  ((fix go (l : list (string * json)) : string :=
                      match l with
                      | [] => EmptyString
                      | [(k, x)] => (json_quote k ++ ": " ++ json_dumps x)%string
                      | (k, x) :: rest =>
                          (json_quote k ++ ": " ++ json_dumps x ++ ", " ++ go rest)%string
                      end) fields) = true).
    { induction fields as [|[k x] rest IHr]; [reflexivity|].
      destruct rest as [|p rest].
      - rewrite !all_printable_app, json_quote_printable, IH. reflexivity.
      - rewrite !all_printable_app, json_quote_printable, IH, IHr. reflexivity. }
    cbn [json_dumps]. rewrite !all_printable_app, G. reflexivity.
Qed.

(** Whenever [call_tool] returns, it returns exactly one item, of type
    ["text"], and its text consists of printable ASCII characters
    only: no line break and no character beyond tilde, whatever the
    Slack API or the arguments contained. *)
Theorem call_tool_returns_one_ascii_text (world : World) (env : Env) (name : string)
    (arguments : dict) (t : trace) (items : list TextContent) :
  fst (call_tool world env name arguments t) = Return items ->
  exists item,
    items = [item] /\ type item = "text"%string /\ all_printable (text item) = true.
Proof.
  destruct (fst (connect world env t)) as [c|e] eqn:C.
  - destruct (call_tool_returns_once_connected world env name arguments t c C)
      as [payload ->].
    intros H. injection H as <-. eexists. split; [reflexivity|]. split; [reflexivity|].
    apply json_dumps_printable.
  - rewrite (call_tool_not_connected _ _ _ _ _ _ C). discriminate.
Qed.

(** A message with a line break and an accented letter comes back
    escaped. *)
Lemma call_tool_returns_one_ascii_text_witness :
  let echo := JObj [("ok", JBool true);
                    ("text", JStr ("caf" ++ chr 233 ++ chr 10 ++ "ok"))]%string in
  let world := network (ok_response (granted "xoxb-1" "T1")) (ok_response echo) in
  exists item,
    [MkTextContent "text"
       ("{" ++ dq ++ "ok" ++ dq ++ ": true, " ++ dq ++ "text" ++ dq ++ ": "
        ++ dq ++ "caf\u00e9\nok" ++ dq ++ "}")%string] = [item]
    /\ type item = "text"%string /\ all_printable (text item) = true.
Proof.
  intros echo world.
  exact (call_tool_returns_one_ascii_text world sample_env "slack_post_message"
           [("channel_id", JStr "C1"); ("text", JStr "hi")]%string [] _ eq_refl).
Defined.

(** ** Routing *)

Lemma trace_not_extended (t : trace) (ev : event) : t <> t ++ [ev].
Proof.
  intros H. apply (f_equal (@List.length event)) in H.
  rewrite length_app in H. simpl in H. lia.
Qed.

Ltac no_request H :=
  exfalso; unfold raise in H; cbn [snd] in H; exact (trace_not_extended _ _ H).

Ltac the_request H :=
  unfold bind in H; cbv zeta in H;
  repeat match type of H with
         | context [get_conversation_info ?w ?c ?x ?t] =>
             rewrite (get_conversation_info_spec w c x t) in H; cbv zeta in H
         | context [post_message ?w ?c ?x ?y ?t] =>
             rewrite (post_message_spec w c x y t) in H; cbv zeta in H
         | context [post_reply ?w ?c ?x ?y ?z ?t] =>
             rewrite (post_reply_spec w c x y z t) in H; cbv zeta in H
         | context [add_reaction ?w ?c ?x ?y ?z ?t] =>
             rewrite (add_reaction_spec w c x y z t) in H; cbv zeta in H
         | context [get_channel_history ?w ?c ?x ?y ?t] =>
             rewrite (get_channel_history_spec w c x y t) in H; cbv zeta in H
         | context [get_thread_replies ?w ?c ?x ?y ?t] =>
             rewrite (get_thread_replies_spec w c x y t) in H; cbv zeta in H
         | context [get_user_profile ?w ?c ?x ?t] =>
             rewrite (get_user_profile_spec w c x t) in H; cbv zeta in H
         end;
  repeat match type of H with
         | context [decoded ?o] => destruct (decoded o); cbn [and_then] in H
         | context [select_channel ?d] => destruct (select_channel d); cbn [and_then] in H
         | context [truthy ?v] => destruct (truthy v)
         end;
  unfold ret in H; cbn [snd] in H;
  apply app_inv_head in H; injection H as <-.

Lemma prefix_empty (s : string) : String.prefix EmptyString s = true.
Proof. destruct s; reflexivity. Qed.

Ltac route_done verb url :=
  exists verb, url; subst; split;
  [unfold routes; simpl; repeat (first [left; reflexivity | right])
  |simpl; repeat split; eauto using prefix_empty].

(** Every request the [try] block makes is the one of its tool: the
    three writes are POSTs to their URL with a JSON body and no query,
    the six reads are GETs of their URL followed by a query string,
    without a body; [slack_post_message] and [slack_reply_to_thread]
    share one URL. *)
Theorem request_follows_route (world : World) (c : SlackClient) (name : string)
    (arguments : dict) (t : trace) (req : request) :
  snd (dispatch world c name arguments t) = t ++ [Http req] ->
  exists verb url,
    In (name, (verb, url)) routes
    /\ req_method req = verb
    /\ req_headers req = bot_headers c
    /\ req_params req = []
    /\ match verb with
       | POST => req_url req = url /\ exists payload, req_json req = Some (JObj payload)
       | GET => String.prefix (url ++ "?") (req_url req) = true /\ req_json req = None
       end.
Proof.
  intros H. unfold dispatch in H. revert H. by_name; intros H.
  - unfold bind in H. rewrite get_channels_spec in H.
    destruct (get_channels_params c _ _) as [params|err]; cbv zeta in H;
      [|no_request H].
    destruct (decoded _); unfold ret in H; cbn [snd] in H;
      apply app_inv_head in H; injection H as <-;
      route_done GET "https://slack.com/api/conversations.list"%string.
  - destruct (truthy (dict_get arguments "channel_id" JNull)); cbn [negb] in H;
      [|no_request H].
    the_request H;
      route_done GET "https://slack.com/api/conversations.info"%string.
  - destruct (truthy (dict_get arguments "channel_id" JNull)),
             (truthy (dict_get arguments "text" JNull)); cbn [negb orb] in H;
      try no_request H.
    the_request H;
      route_done POST "https://slack.com/api/chat.postMessage"%string.
  - destruct (truthy (dict_get arguments "channel_id" JNull)),
             (truthy (dict_get arguments "thread_ts" JNull)),
             (truthy (dict_get arguments "text" JNull)); cbn [negb orb] in H;
      try no_request H.
    the_request H;
      route_done POST "https://slack.com/api/chat.postMessage"%string.
  - destruct (truthy (dict_get arguments "channel_id" JNull)),
             (truthy (dict_get arguments "timestamp" JNull)),
             (truthy (dict_get arguments "reaction" JNull)); cbn [negb orb] in H;
      try no_request H.
    the_request H;
      route_done POST "https://slack.com/api/reactions.add"%string.
  - destruct (truthy (dict_get arguments "channel_id" JNull)); cbn [negb] in H;
      [|no_request H].
    the_request H;
      route_done GET "https://slack.com/api/conversations.history"%string.
  - destruct (truthy (dict_get arguments "channel_id" JNull)),
             (truthy (dict_get arguments "thread_ts" JNull)); cbn [negb orb] in H;
      try no_request H.
    the_request H;
      route_done GET "https://slack.com/api/conversations.replies"%string.
  - unfold bind in H. rewrite get_users_spec in H.
    destruct (get_users_params c _ _) as [params|err]; cbv zeta in H;
      [|no_request H].
    destruct (decoded _); unfold ret in H; cbn [snd] in H;
      apply app_inv_head in H; injection H as <-;
      route_done GET "https://slack.com/api/users.list"%string.
  - destruct (truthy (dict_get arguments "user_id" JNull)); cbn [negb] in H;
      [|no_request H].
    the_request H;
      route_done GET "https://slack.com/api/users.profile.get"%string.
  - no_request H.
Qed.

(** A reply in a thread is a POST to the URL of [slack_post_message]. *)
Lemma request_follows_route_witness :
  let world := network (ok_response (granted "xoxb-1" "T1"))
                 (ok_response (JObj [("ok", JBool true)])) in
  let c := SlackClient_init (JStr "xoxb-1") (JStr "T1") in
  let req := slack_write c "chat.postMessage"
               (JObj [("channel", JStr "C1"); ("thread_ts", JStr "1.1");
                      ("text", JStr "hi")]) in
  exists verb url,
    In ("slack_reply_to_thread"%string, (verb, url)) routes
    /\ req_method req = verb
    /\ req_headers req = bot_headers c
    /\ req_params req = []
    /\ match verb with
       | POST => req_url req = url /\ exists payload, req_json req = Some (JObj payload)
       | GET => String.prefix (url ++ "?") (req_url req) = true /\ req_json req = None
       end.
Proof.
  intros world c req.
  exact (request_follows_route world c "slack_reply_to_thread"
           [("channel_id", JStr "C1"); ("thread_ts", JStr "1.1"); ("text", JStr "hi")]%string
           [] req eq_refl).
Defined.
